(** * user_sync_app: the synchronisation pass, embedded and verified

    The development follows the Python sources:
    - [models.py]        the [UserUpdate] data class,
    - [api_client.py]    [ExternalAPIClient.get_user_info] and its retry policy,
    - [database.py]      [DatabaseManager.get_all_users] and [bulk_update_users],
    - [sync_service.py]  [UserSyncService.fetch_and_prepare_update] and
                         [sync_users], and the semaphore that gates the units.

    Python values are embedded as an inductive type, dictionaries as finite
    maps, exceptions as an error monad, the collection and the network as
    explicit collaborators. *)

From Stdlib Require Import ZArith Lia.
From stdpp Require Import gmap strings list fin_maps pretty.

Open Scope string_scope.
Open Scope list_scope.
Open Scope nat_scope.

(** ** Python values *)

(** The values that occur in user documents, API payloads and update
    documents: [None], strings, BSON object ids and datetimes (in
    microseconds, the resolution of [datetime]). *)
Inductive value : Type :=
  | VNone
  | VStr (s : string)
  | VObjectId (hex : string)
  | VDatetime (t : Z).

#[global] Instance value_eq_dec : EqDecision value.
Proof. solve_decision. Defined.

(** A Python [dict] with string keys (a MongoDB document, a JSON object). *)
Abbreviation doc := (gmap string value).

(** [d.get(k)]: the value under [k], [None] when the key is missing. *)
Definition dict_get (d : doc) (k : string) : value :=
  default VNone (d !! k).

(** [a != b] on values. *)
Definition py_ne (a b : value) : bool := bool_decide (a ≠ b).

(** Truth value of a Python value: [None] and the empty string are falsy. *)
Definition truthy (v : value) : bool :=
  match v with
  | VNone => false
  | VStr s => bool_decide (s ≠ "")
  | VObjectId _ => true
  | VDatetime _ => true
  end.

(** [str(v)]. *)
Definition py_str (v : value) : string :=
  match v with
  | VNone => "None"
  | VStr s => s
  | VObjectId hex => hex
  | VDatetime t => pretty t
  end.

(** [a or b]. *)
Definition py_or (a b : value) : value := if truthy a then a else b.

(** ** Exceptions *)

Inductive exn : Type :=
  | ClientError      (* aiohttp.ClientError and its subclasses *)
  | TimeoutError     (* asyncio.TimeoutError *)
  | RetryError       (* tenacity.RetryError *)
  | AttributeError
  | ValueError
  | PyMongoError
  | OtherException.

#[global] Instance exn_eq_dec : EqDecision exn.
Proof. solve_decision. Defined.

(** A computation either returns or raises. *)
Inductive outcome (A : Type) : Type :=
  | Return (a : A)
  | Raise (e : exn).
Arguments Return {A} a.
Arguments Raise {A} e.

#[global] Instance outcome_ret : MRet outcome := λ A a, Return a.

#[global] Instance outcome_bind : MBind outcome := λ A B k c,
  match c with
  | Return a => k a
  | Raise e => Raise e
  end.

(** [try: c except Exception as e: h e]. *)
Definition try_except {A} (c : outcome A) (h : exn → outcome A) : outcome A :=
  match c with
  | Return a => Return a
  | Raise e => h e
  end.


(** ** models.py *)

Record UserUpdate : Type := mkUserUpdate {
  user_id : value;
  phone_number : value;
  city : value;
  state : value;
  last_synced : value
}.

#[global] Instance UserUpdate_eq_dec : EqDecision UserUpdate.
Proof. solve_decision. Defined.

(** The tracked fields. *)
Definition tracked : list string := ["phone_number"; "city"; "state"].

(** The attribute of a payload named by a tracked field. *)
Definition payload_field (u : UserUpdate) (k : string) : value :=
  if decide (k = "phone_number") then phone_number u
  else if decide (k = "city") then city u
  else if decide (k = "state") then state u
  else VNone.

(** ** api_client.py *)

(** What [response.json()] gives back: a JSON object, or any other JSON
    value, of which only the truth value matters to the caller. *)
Inductive json : Type :=
  | JObject (d : doc)
  | JOther (is_truthy : bool).

(** What one HTTP request does: it answers with a status and a decoded
    body, fails with an [aiohttp.ClientError] (connection errors, a body of
    the wrong content type), or fails with any other exception (a timeout,
    a body that is not JSON). *)
Inductive http_reply : Type :=
  | Reply (status : nat) (body : json)
  | ClientFailure
  | OtherFailure.

(** The remote service: the reply to the [n]-th attempt for an identifier. *)
Definition network : Type := value → nat → http_reply.

(** The body of [get_user_info], one attempt. *)
Definition get_user_info_attempt (r : http_reply) : outcome (option json) :=
  match r with
  | Reply status body =>
      if (status =? 200)%nat then Return (Some body)
      else if (status =? 404)%nat then Return None
      else if (400 <=? status)%nat then Raise ClientError (* raise_for_status *)
      else Return None
  | ClientFailure => Raise ClientError
  | OtherFailure => Return None
  end.

(** [retry_if_exception_type((aiohttp.ClientError, asyncio.TimeoutError))]. *)
Definition retryable (e : exn) : bool :=
  match e with ClientError | TimeoutError => true | _ => false end.

(** tenacity's [retry] with [stop_after_attempt(attempts)]: the call is
    repeated while it raises a retryable exception; when the attempts are
    used up [RetryError] is raised. *)
Fixpoint retry {A} (attempts : nat) (n : nat) (call : nat → outcome A) : outcome A :=
  match attempts with
  | 0 => Raise RetryError
  | S rest =>
      match call n with
      | Return a => Return a
      | Raise e => if retryable e then retry rest (S n) call else Raise e
      end
  end.

Definition get_user_info (net : network) (uid : value) : outcome (option json) :=
  retry 3 0 (λ n, get_user_info_attempt (net uid n)).

(** [not api_data]. *)
Definition api_data_falsy (api_data : option json) : bool :=
  match api_data with
  | None => true
  | Some (JObject d) => bool_decide (d = ∅)
  | Some (JOther t) => negb t
  end.

(** [api_data.get(k)]; only a dict has [get]. *)
Definition api_get (api_data : option json) (k : string) : outcome value :=
  match api_data with
  | Some (JObject d) => Return (dict_get d k)
  | _ => Raise AttributeError
  end.

(** ** sync_service.py: the unit of work *)

(** [user.get("user_id") or str(user.get("_id"))]. *)
Definition user_id_of (user : doc) : value :=
  py_or (dict_get user "user_id") (VStr (py_str (dict_get user "_id"))).

(** [fetch_and_prepare_update], the part under the semaphore; [now] is what
    [datetime.utcnow()] reads when the payload is built. *)
Definition fetch_and_prepare_update (net : network) (now : Z) (user : doc)
  : outcome (option UserUpdate) :=
  let uid := user_id_of user in
  try_except
    (api_data ← get_user_info net uid;
     if api_data_falsy api_data then Return None
     else
       let current_phone := dict_get user "phone_number" in
       let current_city := dict_get user "city" in
       let current_state := dict_get user "state" in
       api_phone ← api_get api_data "phone_number";
       api_city ← api_get api_data "city";
       api_state ← api_get api_data "state";
       if py_ne current_phone api_phone
          || py_ne current_city api_city
          || py_ne current_state api_state
       then Return (Some (mkUserUpdate uid api_phone api_city api_state (VDatetime now)))
       else Return None)
    (λ _, Return None).

(** ** database.py *)

(** One [update_one] request of a bulk write: the document whose [user_id]
    equals [op_filter] gets the fields of [op_set] set. *)
Record operation : Type := mkOperation {
  op_filter : value;
  op_set : doc;
  op_upsert : bool
}.

#[global] Instance operation_eq_dec : EqDecision operation.
Proof. solve_decision. Defined.

(** The pymongo collection the manager talks to: listing the documents and
    writing a batch either return or raise, and may change the store. *)
Class Collection (Store : Type) : Type := {
  find_all : Store → outcome (list doc);
  bulk_write : Store → list operation → Store * outcome nat
}.

(** The [update_doc] built for one payload (the [$set] part). *)
Definition update_doc (update : UserUpdate) : doc :=
  let s0 : doc := {[ "last_synced" := last_synced update ]} in
  let s1 := if decide (phone_number update ≠ VNone)
            then <["phone_number" := phone_number update]> s0 else s0 in
  let s2 := if decide (city update ≠ VNone)
            then <["city" := city update]> s1 else s1 in
  if decide (state update ≠ VNone)
  then <["state" := state update]> s2 else s2.

(** The operation appended for one payload. *)
Definition build_operation (update : UserUpdate) : operation :=
  mkOperation (user_id update) (update_doc update) false.

(** [for update in updates: ... operations.append(...)]. *)
Definition build_operations (updates : list UserUpdate) : list operation :=
  map build_operation updates.

(** [l[i:j]] for indices within the natural numbers. *)
Definition slice {A} (l : list A) (i j : nat) : list A :=
  take (j - i) (drop i l).

(** The indices [range(i, stop, step)] visits for a positive [step]; the
    fuel bounds the number of iterations. *)
Fixpoint range_from (fuel i stop step : nat) : list nat :=
  match fuel with
  | 0 => []
  | S fuel' =>
      if (i <? stop)%nat then i :: range_from fuel' (i + step) stop step else []
  end.

(** [range(0, stop, step)]: a zero step is a [ValueError], a negative step
    gives the empty range. *)
Definition py_range (stop : nat) (step : Z) : outcome (list nat) :=
  if (step =? 0)%Z then Raise ValueError
  else if (step <? 0)%Z then Return []
  else Return (range_from stop 0 stop (Z.to_nat step)).

(** One [bulk_write] call as the manager sees it: the batch it passed and
    what the call reported. *)
Definition call : Type := list operation * outcome nat.


Section Database.
Context {Store : Type} `{Collection Store}.

(** [get_all_users]: the [except PyMongoError] logs and re-raises. *)
Definition get_all_users (st : Store) : outcome (list doc) :=
  try_except (find_all st) (λ e, Raise e).

(** The [for i in range(...)] loop of [bulk_update_users]: the store, the
    calls made so far, and the result. *)
Fixpoint write_batches (st : Store) (operations : list operation)
    (batch_size : Z) (indices : list nat) (total_modified : nat)
    (issued : list call)
  : Store * list call * outcome nat :=
  match indices with
  | [] => (st, issued, Return total_modified)
  | i :: indices' =>
      let batch := slice operations i (Z.to_nat (Z.of_nat i + batch_size)) in
      match bulk_write st batch with
      | (st', Return modified_count) =>
          write_batches st' operations batch_size indices'
            (total_modified + modified_count)
            (issued ++ [(batch, Return modified_count)])
      | (st', Raise e) => (st', issued ++ [(batch, Raise e)], Raise e)
      end
  end.

(** [bulk_update_users]; [BATCH_SIZE] is [Config.BATCH_SIZE]. *)
Definition bulk_update_users (BATCH_SIZE : Z) (st : Store) (updates : list UserUpdate)
  : Store * list call * outcome nat :=
  match updates with
  | [] => (st, [], Return 0)
  | _ =>
      let operations := build_operations updates in
      match py_range (length operations) BATCH_SIZE with
      | Raise e => (st, [], Raise e)
      | Return indices => write_batches st operations BATCH_SIZE indices 0 []
      end
  end.
End Database.

(** ** sync_service.py: the orchestrator *)

(** What [asyncio.gather(..., return_exceptions=True)] puts in its result
    list for one task: the returned value or the exception object. *)
Inductive gathered : Type :=
  | GValue (v : option UserUpdate)
  | GException (e : exn).

Definition gather (tasks : list (outcome (option UserUpdate))) : list gathered :=
  map (λ t, match t with Return v => GValue v | Raise e => GException e end) tasks.

(** [isinstance(result, UserUpdate)], keeping the payload. *)
Definition as_UserUpdate (r : gathered) : option UserUpdate :=
  match r with GValue (Some u) => Some u | _ => None end.

(** [isinstance(r, Exception)]. *)
Definition is_exception (r : gathered) : bool :=
  match r with GException _ => true | GValue _ => false end.

(** The statistics dictionary; the duration is kept in microseconds. *)
Record stats : Type := mkStats {
  total_users : nat;
  users_checked : nat;
  users_updated : nat;
  errors : nat;
  duration_seconds : Z
}.

(** The readings of [datetime.utcnow()] during one run. *)
Record clock : Type := mkClock {
  start_time : Z;
  unit_time : nat → Z;   (* in the unit of the [i]-th listed user *)
  end_time : Z
}.

(** "Calculate statistics". *)
Definition statistics (total : nat) (results : list gathered)
    (modified_count : nat) (ck : clock) : stats :=
  let duration := (end_time ck - start_time ck)%Z in
  let errors_count := length (filter (λ r, is_exception r = true) results) in
  {| total_users := total;
     users_checked := length (filter (λ r, is_exception r ≠ true) results);
     users_updated := modified_count;
     errors := errors_count;
     duration_seconds := duration |}.

Section Sync.
Context {Store : Type} `{Collection Store}.

(** The tasks of one run, one per listed user, and what [gather] collects. *)
Definition run_units (net : network) (ck : clock) (users : list doc) : list gathered :=
  gather (imap (λ i user, fetch_and_prepare_update net (unit_time ck i) user) users).

(** "Filter out None values and exceptions". *)
Definition collect_updates (results : list gathered) : list UserUpdate :=
  omap as_UserUpdate results.

(** [sync_users]: the store after the run, the [bulk_write] calls made,
    and the statistics or the exception that ends the run. *)
Definition sync_users (BATCH_SIZE : Z) (net : network) (ck : clock) (st : Store)
  : Store * list call * outcome stats :=
  match get_all_users st with
  | Raise e => (st, [], Raise e)
  | Return users =>
      let total := length users in
      let results := run_units net ck users in
      let updates := collect_updates results in
      let '(st', issued, modified) :=
        match updates with
        | [] => (st, [], Return 0)
        | _ => bulk_update_users BATCH_SIZE st updates
        end in
      match modified with
      | Raise e => (st', issued, Raise e)
      | Return modified_count =>
          (st', issued, Return (statistics total results modified_count ck))
      end
  end.
End Sync.

(** ** A MongoDB collection

    The collection behind pymongo, as far as the manager uses it: documents
    in insertion order, [find] with a projection, unordered bulk writes of
    [update_one] requests with [$set]. [listing_fails] and [outages] say
    which calls meet a server fault and raise [PyMongoError]. *)
Record mongo : Type := mkMongo {
  documents : list doc;
  listing_fails : bool;
  outages : list bool   (* one flag per coming [bulk_write] call *)
}.

(** The projection of [get_all_users]. *)
Definition projected : list string :=
  ["_id"; "user_id"; "phone_number"; "city"; "state"].

Definition project (d : doc) : doc :=
  filter (λ kv, kv.1 ∈ projected) d.

(** [$set]: the fields of [s] replace those of [d], the others stay. *)
Definition apply_set (s d : doc) : doc := s ∪ d.

(** [update_one({"user_id": v}, {"$set": s}, upsert)]: the first document
    whose [user_id] is [v] is updated; it counts as modified when it
    changed. Without a match nothing happens unless [upsert] is set. *)
Fixpoint update_one (op : operation) (docs : list doc) : list doc * nat :=
  match docs with
  | [] =>
      if op_upsert op
      then ([apply_set (op_set op) {[ "user_id" := op_filter op ]}], 0)
      else ([], 0)
  | d :: docs' =>
      if decide (dict_get d "user_id" = op_filter op)
      then
        let d' := apply_set (op_set op) d in
        (d' :: docs', if decide (d' = d) then 0 else 1)
      else
        let '(docs'', n) := update_one op docs' in (d :: docs'', n)
  end.

(** All requests of one batch, with the sum of their modified counts. *)
Fixpoint apply_batch (batch : list operation) (docs : list doc) : list doc * nat :=
  match batch with
  | [] => (docs, 0)
  | op :: batch' =>
      let '(docs', n) := update_one op docs in
      let '(docs'', n') := apply_batch batch' docs' in
      (docs'', n + n')
  end.

Definition mongo_find_all (m : mongo) : outcome (list doc) :=
  if listing_fails m then Raise PyMongoError
  else Return (map project (documents m)).

(** pymongo refuses an empty list of requests ([InvalidOperation]). *)
Definition mongo_bulk_write (m : mongo) (batch : list operation)
  : mongo * outcome nat :=
  match batch with
  | [] => (m, Raise PyMongoError)
  | _ =>
      match outages m with
      | true :: later => (mkMongo (documents m) (listing_fails m) later, Raise PyMongoError)
      | _ =>
          let '(docs', n) := apply_batch batch (documents m) in
          (mkMongo docs' (listing_fails m) (tail (outages m)), Return n)
      end
  end.

#[global] Instance mongo_collection : Collection mongo := {
  find_all := mongo_find_all;
  bulk_write := mongo_bulk_write
}.

(** What a stored document [d] may have become, [d'], after updates for the
    payloads [updates]: the fields other than [last_synced] and the tracked
    ones are as before, and a document whose [user_id] is the identifier of
    no payload is as before altogether. *)
Definition kept_by (updates : list UserUpdate) (d d' : doc) : Prop :=
  (∀ k, k ≠ "last_synced" → k ∉ tracked → d' !! k = d !! k) ∧
  ((∀ p, p ∈ updates → user_id p ≠ dict_get d "user_id") → d' = d).

(** ** The semaphore around the unit of work

    [async with self.semaphore] encloses the whole unit: a unit waits for a
    slot, then sleeps the request delay, then awaits the lookup, and gives
    the slot back when the lookup has come back (what follows the lookup has
    no suspension point). *)
Inductive phase : Type :=
  | Waiting     (* suspended in the semaphore's [acquire] *)
  | Delaying    (* holds a slot, in [asyncio.sleep] *)
  | Fetching    (* holds a slot, in [get_user_info] *)
  | Finished.   (* slot released *)

#[global] Instance phase_eq_dec : EqDecision phase.
Proof. solve_decision. Defined.

Record sem_state : Type := mkSem {
  sem_value : nat;       (* the semaphore's counter *)
  units : list phase     (* one entry per task handed to [gather] *)
}.

(** [Semaphore(CONCURRENT_REQUESTS)] and one fresh task per user. *)
Definition sem_init (CONCURRENT_REQUESTS m : nat) : sem_state :=
  mkSem CONCURRENT_REQUESTS (replicate m Waiting).

(** The event loop resumes unit [i]: it moves to its next suspension point
    when it can; [None] when the unit cannot move (it waits for a slot while
    the counter is zero, it has finished, or there is no such unit). *)
Definition advance (s : sem_state) (i : nat) : option sem_state :=
  match units s !! i with
  | Some Waiting =>
      match sem_value s with
      | 0 => None
      | S v => Some (mkSem v (<[i := Delaying]> (units s)))
      end
  | Some Delaying => Some (mkSem (sem_value s) (<[i := Fetching]> (units s)))
  | Some Fetching => Some (mkSem (S (sem_value s)) (<[i := Finished]> (units s)))
  | Some Finished => None
  | None => None
  end.

(** A run of the event loop under a schedule, the units it resumes in
    order; a unit that cannot move stays where it is. *)
Fixpoint run_schedule (s : sem_state) (schedule : list nat) : sem_state :=
  match schedule with
  | [] => s
  | i :: schedule' => run_schedule (default s (advance s i)) schedule'
  end.

Definition holds_slot (p : phase) : bool :=
  match p with Delaying | Fetching => true | _ => false end.

(** The units that hold a slot, and those inside the lookup. *)
Definition holding (s : sem_state) : nat :=
  length (filter (λ p, holds_slot p = true) (units s)).

Definition in_flight (s : sem_state) : nat :=
  length (filter (λ p, p = Fetching) (units s)).

(** The schedule that runs the units one after the other, each through its
    three steps. *)
Definition one_by_one (m : nat) : list nat :=
  concat ((λ i, [i; i; i]) <$> seq 0 m).

(** ** config.py *)

Module Config.

(** The process environment. *)
Abbreviation environ := (gmap string string).

(** [os.getenv(name, default)]. *)
Definition getenv (env : environ) (name default_value : string) : string :=
  default default_value (env !! name).

(** The string settings of the [Config] class, read when the class body
    runs. *)
Record settings : Type := mkSettings {
  MONGO_URI : string;
  DB_NAME : string;
  COLLECTION_NAME : string;
  API_BASE_URL : string;
  API_KEY : string
}.

Definition load (env : environ) : settings :=
  {| MONGO_URI := getenv env "MONGO_URI" "mongodb://localhost:27017";
     DB_NAME := getenv env "DB_NAME" "your_database";
     COLLECTION_NAME := getenv env "COLLECTION_NAME" "users";
     API_BASE_URL := getenv env "API_BASE_URL" "https://api.example.com";
     API_KEY := getenv env "API_KEY" "your_api_key" |}.

(** The [required_vars] dictionary of [validate], in insertion order. *)
Definition required_vars (c : settings) : list (string * string) :=
  [("MONGO_URI", MONGO_URI c);
   ("DB_NAME", DB_NAME c);
   ("COLLECTION_NAME", COLLECTION_NAME c);
   ("API_BASE_URL", API_BASE_URL c);
   ("API_KEY", API_KEY c)].

(** [not value or value.startswith("your_")]. *)
Definition invalid (v : string) : bool :=
  bool_decide (v = "") || String.prefix "your_" v.

(** The list [missing] of [validate]. *)
Definition missing (c : settings) : list string :=
  (filter (λ kv, invalid kv.2 = true) (required_vars c)).*1.

(** [Config.validate]. *)
Definition validate (c : settings) : outcome () :=
  match missing c with
  | [] => Return ()
  | _ => Raise ValueError
  end.

End Config.

(** ** main.py *)

(** What [DatabaseManager.connect] meets: the client is built and answers
    the ping, the client cannot be built from the URI, or the client is
    built and the ping fails. The last two raise [PyMongoError]. *)
Inductive connecting : Type :=
  | Connects
  | BadUri
  | PingFails.

(** What a run of [main] shows to the outside (log records apart). *)
Inductive event : Type :=
  | PrintedSummary (s : stats)
  | PrintedConfigurationError
  | SessionClosed        (* [api_client.close()] closed the aiohttp session *)
  | MongoCloseCalled.   (* [db_manager.disconnect()] called [client.close()] *)

#[global] Instance stats_eq_dec : EqDecision stats.
Proof. solve_decision. Defined.

#[global] Instance event_eq_dec : EqDecision event.
Proof. solve_decision. Defined.

(** How [main] ends: it returns, it raises an exception that came out of
    its [try] block, it raises [UnboundLocalError] from its [finally]
    block, or it never ends. *)
Inductive ending : Type :=
  | Returned
  | Raised (e : exn)
  | RaisedUnboundLocalError
  | Hangs.

(** The local variables [db_manager] and [api_client] of [main] (both are
    bound by two consecutive constructor calls), the aiohttp session of the
    client and the pymongo client of the manager. *)
Record resources : Type := mkResources {
  bound : bool;
  session_open : bool;
  client_open : bool
}.

(** The process [main] runs in. *)
Record process (Store : Type) : Type := mkProcess {
  config : Config.settings;
  CONCURRENT_REQUESTS : Z;
  BATCH_SIZE : Z;
  connection : connecting;
  collection : Store;
  remote : network;
  time : clock
}.
Arguments mkProcess {Store}.
Arguments config {Store}.
Arguments CONCURRENT_REQUESTS {Store}.
Arguments BATCH_SIZE {Store}.
Arguments connection {Store}.
Arguments collection {Store}.
Arguments remote {Store}.
Arguments time {Store}.

Section Main.
Context {Store : Type} `{Collection Store}.

(** Whether the run gets to list at least one user. *)
Definition lists_users (p : process Store) : bool :=
  match get_all_users (collection p) with
  | Return (_ :: _) => true
  | _ => false
  end.

(** The [try] block of [main]: what it prints, the resources it leaves,
    and how it ends ([None] when it never does). The semaphore is built
    with the service and refuses a negative value; with the value zero no
    unit ever gets a slot. The session is opened by the first lookup. *)
Definition main_try (p : process Store)
  : list event * resources * option (outcome ()) :=
  match Config.validate (config p) with
  | Raise e => ([], mkResources false false false, Some (Raise e))
  | Return _ =>
      match connection p with
      | BadUri => ([], mkResources true false false, Some (Raise PyMongoError))
      | PingFails => ([], mkResources true false true, Some (Raise PyMongoError))
      | Connects =>
          if (CONCURRENT_REQUESTS p <? 0)%Z
          then ([], mkResources true false true, Some (Raise ValueError))
          else if lists_users p && (CONCURRENT_REQUESTS p =? 0)%Z
          then ([], mkResources true false true, None)
          else
            match (sync_users (BATCH_SIZE p) (remote p) (time p) (collection p)).2 with
            | Raise e => ([], mkResources true (lists_users p) true, Some (Raise e))
            | Return s =>
                ([PrintedSummary s], mkResources true (lists_users p) true,
                 Some (Return ()))
            end
      end
  end.

(** The [finally] block: [api_client.close()], then
    [db_manager.disconnect()]; unbound variables raise. *)
Definition main_finally (r : resources) (pending : ending) : list event * ending :=
  if bound r
  then ((if session_open r then [SessionClosed] else [])
        ++ (if client_open r then [MongoCloseCalled] else []), pending)
  else ([], RaisedUnboundLocalError).

(** [main]: the [try] block, the handlers ([ValueError] is reported as a
    configuration error and the function returns; any other exception is
    raised again), and the [finally] block. *)
Definition main (p : process Store) : list event * ending :=
  let '(printed, r, result) := main_try p in
  match result with
  | None => (printed, Hangs)
  | Some (Return _) =>
      let '(closed, e) := main_finally r Returned in (printed ++ closed, e)
  | Some (Raise ValueError) =>
      let '(closed, e) := main_finally r Returned in
      (printed ++ [PrintedConfigurationError] ++ closed, e)
  | Some (Raise e) =>
      let '(closed, e') := main_finally r (Raised e) in (printed ++ closed, e')
  end.
End Main.

(** ** Sample data

    Three stored users and a few remote services, used to run the model. *)
Definition alice : doc :=
  {[ "_id" := VObjectId "64a0"; "user_id" := VStr "A";
     "phone_number" := VStr "111"; "city" := VStr "Paris" ]}.
Definition bob : doc :=
  {[ "_id" := VObjectId "64b0"; "user_id" := VStr "B"; "phone_number" := VStr "222" ]}.
Definition carol : doc :=
  {[ "_id" := VObjectId "64c0"; "user_id" := VStr "C"; "phone_number" := VStr "333" ]}.

(** A is unchanged, B has a new phone number, C is unknown to the service. *)
Definition net_scenario : network := λ uid _,
  if decide (uid = VStr "A")
  then Reply 200 (JObject {[ "phone_number" := VStr "111"; "city" := VStr "Paris" ]})
  else if decide (uid = VStr "B")
  then Reply 200 (JObject {[ "phone_number" := VStr "999" ]})
  else Reply 404 (JOther false).

(** The service answers every request with status 200 and the body [{}]. *)
Definition net_empty_body : network := λ _ _, Reply 200 (JObject ∅).

(** The service has no phone number any more, the city is as stored. *)
Definition net_cleared : network := λ _ _,
  Reply 200 (JObject {[ "phone_number" := VNone; "city" := VStr "Paris" ]}).

(** Every request for A fails with a client error, B has a new number. *)
Definition net_down_for_A : network := λ uid _,
  if decide (uid = VStr "A") then ClientFailure
  else Reply 200 (JObject {[ "phone_number" := VStr "999" ]}).

(** The same store, with a server fault at the first bulk write. *)
Definition failing_store : mongo := mkMongo [alice; bob; carol] false [true].

(** One payload for each of the stored users. *)
Definition three_payloads : list UserUpdate :=
  [mkUserUpdate (VStr "A") (VStr "101") VNone VNone (VDatetime 1);
   mkUserUpdate (VStr "B") (VStr "202") (VStr "Lyon") VNone (VDatetime 2);
   mkUserUpdate (VStr "C") VNone VNone (VStr "NY") (VDatetime 3)].

(** A payload whose tracked values are all absent. *)
Definition timestamp_only : UserUpdate :=
  mkUserUpdate (VStr "A") VNone VNone VNone (VDatetime 1).

(** The first two requests fail (a connection error, then status 503), the
    third one answers. *)
Definition flaky_net : network := λ _ n,
  match n with
  | 0 => ClientFailure
  | 1 => Reply 503 (JOther false)
  | _ => Reply 200 (JObject {[ "phone_number" := VStr "999" ]})
  end.

(** A valid configuration, and the one of an empty environment. *)
Definition sample_config : Config.settings :=
  Config.mkSettings "mongodb://db:27017" "crm" "users" "https://api.example.com" "k3y".

Definition sample_environment : Config.environ :=
  {[ "DB_NAME" := "crm"; "API_KEY" := "k3y" ]}.

Definition sample_clock : clock := mkClock 0 (λ i, 1 + Z.of_nat i)%Z 10.

Definition sample_store : mongo := mkMongo [alice; bob; carol] false [].

(** What listing the sample store gives. *)
Definition listed_sample : list doc := map project [alice; bob; carol].

(** Processes: a healthy one, one started in an empty environment, one with
    a batch size of zero, and one whose database does not answer the ping. *)
Definition sample_process : process mongo :=
  mkProcess sample_config 20 100 Connects sample_store net_scenario
    (mkClock 0 (λ i, 1 + Z.of_nat i)%Z 10).

Definition unconfigured_process : process mongo :=
  mkProcess (Config.load ∅) 20 100 Connects sample_store net_scenario
    (mkClock 0 (λ i, 1 + Z.of_nat i)%Z 10).

Definition zero_batch_process : process mongo :=
  mkProcess (Config.load sample_environment) 20 0 Connects sample_store net_scenario
    (mkClock 0 (λ i, 1 + Z.of_nat i)%Z 10).

Definition unreachable_process : process mongo :=
  mkProcess sample_config 20 100 PingFails sample_store net_scenario
    (mkClock 0 (λ i, 1 + Z.of_nat i)%Z 10).

(** * Properties *)

(** ** The unit of work *)

(** What the unit does once the lookup has come back with a JSON object. *)
Lemma fetch_found net now user fetched :
  get_user_info net (user_id_of user) = Return (Some (JObject fetched)) →
  fetch_and_prepare_update net now user =
    if bool_decide (fetched = ∅) then Return None
    else if py_ne (dict_get user "phone_number") (dict_get fetched "phone_number")
            || py_ne (dict_get user "city") (dict_get fetched "city")
            || py_ne (dict_get user "state") (dict_get fetched "state")
         then Return (Some (mkUserUpdate (user_id_of user)
                              (dict_get fetched "phone_number")
                              (dict_get fetched "city")
                              (dict_get fetched "state") (VDatetime now)))
         else Return None.
Proof.
  intros Hlookup. unfold fetch_and_prepare_update. rewrite Hlookup. cbn.
  case_bool_decide; [reflexivity|]. cbn.
  destruct (_ || _); reflexivity.
Qed.

(** The [except Exception] of the unit lets nothing out. *)
Lemma fetch_never_raises net now user :
  ∃ v, fetch_and_prepare_update net now user = Return v.
Proof.
  unfold fetch_and_prepare_update, try_except.
  match goal with |- ∃ v, match ?c with _ => _ end = _ => destruct c end; eauto.
Qed.

(** A payload comes only from a lookup that returned a non-empty object. *)
Lemma fetch_payload_inv net now user p :
  fetch_and_prepare_update net now user = Return (Some p) →
  ∃ fetched,
    get_user_info net (user_id_of user) = Return (Some (JObject fetched)) ∧
    fetched ≠ ∅ ∧
    p = mkUserUpdate (user_id_of user) (dict_get fetched "phone_number")
          (dict_get fetched "city") (dict_get fetched "state") (VDatetime now).
Proof.
  intros Hp.
  destruct (get_user_info net (user_id_of user)) as [[[fetched|t]|]|e] eqn:Hlookup.
  - rewrite (fetch_found _ _ _ _ Hlookup) in Hp.
    case_bool_decide as Hempty; [discriminate|].
    destruct (_ || _); [|discriminate].
    exists fetched. split_and!; congruence.
  - unfold fetch_and_prepare_update in Hp. rewrite Hlookup in Hp. cbn in Hp.
    destruct t; discriminate.
  - unfold fetch_and_prepare_update in Hp. rewrite Hlookup in Hp. discriminate.
  - unfold fetch_and_prepare_update in Hp. rewrite Hlookup in Hp. discriminate.
Qed.

Lemma tracked_cases (k : string) :
  k ∈ tracked ↔ k = "phone_number" ∨ k = "city" ∨ k = "state".
Proof. unfold tracked. rewrite !elem_of_cons, elem_of_nil. tauto. Qed.

Lemma py_ne_true a b : py_ne a b = true ↔ a ≠ b.
Proof. unfold py_ne. by rewrite bool_decide_eq_true. Qed.

(** The three comparisons of the unit, as one statement over [tracked]. *)
Lemma differs_tracked (user fetched : doc) :
  py_ne (dict_get user "phone_number") (dict_get fetched "phone_number")
  || py_ne (dict_get user "city") (dict_get fetched "city")
  || py_ne (dict_get user "state") (dict_get fetched "state") = true
  ↔ ∃ k, k ∈ tracked ∧ dict_get user k ≠ dict_get fetched k.
Proof.
  rewrite !orb_true_iff, !py_ne_true. split.
  - intros [[Hd|Hd]|Hd]; eexists; (split; [|exact Hd]); apply tracked_cases; auto.
  - intros (k & [->|[->| ->]]%tracked_cases & Hd); auto.
Qed.

Lemma payload_field_mk uid ph ci st ts k :
  k ∈ tracked →
  payload_field (mkUserUpdate uid ph ci st ts) k =
    if decide (k = "phone_number") then ph
    else if decide (k = "city") then ci else st.
Proof.
  intros [->|[->| ->]]%tracked_cases; reflexivity.
Qed.

(** ** The update document *)

(** The keys of an update document: [last_synced], and each tracked field
    whose payload value is not [None]. *)
Lemma update_doc_lookup (p : UserUpdate) (k : string) :
  update_doc p !! k =
    if decide (k = "last_synced") then Some (last_synced p)
    else if decide (k ∈ tracked ∧ payload_field p k ≠ VNone)
         then Some (payload_field p k) else None.
Proof.
  unfold update_doc, payload_field.
  destruct p as [uid ph ci st ts]; cbn.
  repeat case_decide; simplify_map_eq; try reflexivity;
    repeat match goal with
    | H : _ ∈ tracked ∧ _ |- _ => destruct H as [?%tracked_cases ?]
    | H : ¬ (_ ∈ tracked ∧ _) |- _ => rewrite tracked_cases in H
    end; try congruence; try tauto; try naive_solver.
Qed.

(** With a non-empty object the unit is the comparison alone. *)
Lemma fetch_nonempty net now (user fetched : doc) :
  get_user_info net (user_id_of user) = Return (Some (JObject fetched)) →
  fetched ≠ ∅ →
  fetch_and_prepare_update net now user =
    if py_ne (dict_get user "phone_number") (dict_get fetched "phone_number")
       || py_ne (dict_get user "city") (dict_get fetched "city")
       || py_ne (dict_get user "state") (dict_get fetched "state")
    then Return (Some (mkUserUpdate (user_id_of user)
                         (dict_get fetched "phone_number")
                         (dict_get fetched "city")
                         (dict_get fetched "state") (VDatetime now)))
    else Return None.
Proof.
  intros Hlookup Hne. rewrite (fetch_found _ _ _ _ Hlookup).
  by rewrite bool_decide_eq_false_2.
Qed.

(** ** Diff detection (C2) *)

(** C2, as stated, fails: the service answers for A with the empty object
    [{}]. The stored phone number "111" differs from the fetched one
    (absent), but [not api_data] holds for an empty dict and the unit
    returns no payload. *)
Lemma C2_counterexample :
  get_user_info net_empty_body (user_id_of alice) = Return (Some (JObject ∅)) ∧
  ¬ ((∃ p, fetch_and_prepare_update net_empty_body 1 alice = Return (Some p))
     ↔ (∃ k, k ∈ tracked ∧ dict_get alice k ≠ dict_get (∅ : doc) k)).
Proof.
  split; [reflexivity|].
  intros [_ Hclaim].
  destruct Hclaim as [p Hp].
  - exists "phone_number". split; [apply tracked_cases; auto|].
    vm_compute. discriminate.
  - vm_compute in Hp. discriminate.
Qed.

(** C2, amended: for every stored record and every non-empty object of
    fetched attributes, the unit produces a payload if and only if at least
    one of [phone_number], [city], [state] differs by value equality (absent
    on both sides is equal); a payload that is produced holds the fetched
    value of every differing tracked field. *)
Theorem C2_diff_correct net now (user fetched : doc) :
  get_user_info net (user_id_of user) = Return (Some (JObject fetched)) →
  fetched ≠ ∅ →
  ((∃ p, fetch_and_prepare_update net now user = Return (Some p))
   ↔ (∃ k, k ∈ tracked ∧ dict_get user k ≠ dict_get fetched k))
  ∧ (∀ p k, fetch_and_prepare_update net now user = Return (Some p) →
            k ∈ tracked → dict_get user k ≠ dict_get fetched k →
            payload_field p k = dict_get fetched k).
Proof.
  intros Hlookup Hne.
  rewrite (fetch_nonempty _ _ _ _ Hlookup Hne).
  rewrite <- differs_tracked.
  destruct (_ || _) eqn:Hdiff.
  - split.
    + split; [reflexivity|eauto].
    + intros p k [= <-] Hk _. rewrite payload_field_mk by exact Hk.
      apply tracked_cases in Hk as [->|[->| ->]]; reflexivity.
  - split.
    + split; [intros [p ?]; discriminate|discriminate].
    + intros p k [=].
Qed.

Lemma C2_diff_correct_witness :
  (∃ p, fetch_and_prepare_update net_scenario 2 bob = Return (Some p)) ∧
  (∃ k, k ∈ tracked ∧
        dict_get bob k ≠ dict_get ({[ "phone_number" := VStr "999" ]} : doc) k).
Proof.
  pose proof (C2_diff_correct net_scenario 2 bob {[ "phone_number" := VStr "999" ]}
                eq_refl) as Hthm.
  destruct Hthm as ([Hto _] & _).
  - intros Hempty. apply (f_equal (λ d : doc, d !! "phone_number")) in Hempty.
    vm_compute in Hempty. discriminate.
  - assert (∃ p, fetch_and_prepare_update net_scenario 2 bob = Return (Some p))
      as Hp by (eexists; vm_compute; reflexivity).
    split; [exact Hp | exact (Hto Hp)].
Defined.

(** ** Clearing a field (C3) *)

(** C3, as stated, fails on both counts. With the phone number cleared at
    the service (and the city as stored) a payload is produced, but its
    update document has no [phone_number] key and the stored number stays.
    With the empty object as fetched attributes no payload is produced. *)
Lemma C3_counterexample :
  (dict_get alice "phone_number" ≠ VNone ∧
   get_user_info net_cleared (user_id_of alice) =
     Return (Some (JObject {[ "phone_number" := VNone; "city" := VStr "Paris" ]})) ∧
   ¬ ∃ p, fetch_and_prepare_update net_cleared 1 alice = Return (Some p) ∧
          is_Some (update_doc p !! "phone_number")) ∧
  (dict_get alice "phone_number" ≠ VNone ∧
   get_user_info net_empty_body (user_id_of alice) = Return (Some (JObject ∅)) ∧
   ¬ ∃ p, fetch_and_prepare_update net_empty_body 1 alice = Return (Some p)).
Proof.
  split; (split; [vm_compute; discriminate|]); (split; [reflexivity|]).
  - intros (p & Hp & Hset). vm_compute in Hp. injection Hp as <-.
    vm_compute in Hset. destruct Hset as [v Hv]. discriminate.
  - intros (p & Hp). vm_compute in Hp. discriminate.
Qed.

(** C3, amended: for every record whose stored value of a tracked field is
    not absent while the fetched value of that field is absent, with a
    non-empty object of fetched attributes, a payload is produced which
    holds [None] for that field; the update document of that payload does
    not name the field, and applying it leaves the field of the stored
    record as it was. *)
Theorem C3_cleared_field_is_kept net now (user fetched : doc) (k : string) :
  k ∈ tracked →
  get_user_info net (user_id_of user) = Return (Some (JObject fetched)) →
  fetched ≠ ∅ →
  dict_get user k ≠ VNone →
  dict_get fetched k = VNone →
  ∃ p, fetch_and_prepare_update net now user = Return (Some p) ∧
       payload_field p k = VNone ∧
       update_doc p !! k = None ∧
       ∀ d : doc, apply_set (update_doc p) d !! k = d !! k.
Proof.
  intros Hk Hlookup Hne Hstored Hfetched.
  rewrite (fetch_nonempty _ _ _ _ Hlookup Hne).
  assert (∃ k', k' ∈ tracked ∧ dict_get user k' ≠ dict_get fetched k') as Hdiff
    by (exists k; split; [exact Hk|congruence]).
  apply differs_tracked in Hdiff. rewrite Hdiff.
  eexists. split; [reflexivity|].
  assert (payload_field (mkUserUpdate (user_id_of user)
            (dict_get fetched "phone_number") (dict_get fetched "city")
            (dict_get fetched "state") (VDatetime now)) k = VNone) as Hfield.
  { rewrite payload_field_mk by exact Hk.
    apply tracked_cases in Hk as [->|[->| ->]]; exact Hfetched. }
  assert (update_doc (mkUserUpdate (user_id_of user)
            (dict_get fetched "phone_number") (dict_get fetched "city")
            (dict_get fetched "state") (VDatetime now)) !! k = None) as Hnone.
  { rewrite update_doc_lookup, Hfield.
    apply tracked_cases in Hk as [->|[->| ->]];
      repeat case_decide; try done; by destruct_and!. }
  split_and!; [exact Hfield|exact Hnone|].
  intros d. unfold apply_set. rewrite lookup_union_r by exact Hnone. reflexivity.
Qed.

Lemma C3_cleared_field_is_kept_witness :
  ∃ p, fetch_and_prepare_update net_cleared 1 alice = Return (Some p) ∧
       payload_field p "phone_number" = VNone ∧
       update_doc p !! "phone_number" = None ∧
       ∀ d : doc, apply_set (update_doc p) d !! "phone_number" = d !! "phone_number".
Proof.
  apply (C3_cleared_field_is_kept net_cleared 1 alice
           {[ "phone_number" := VNone; "city" := VStr "Paris" ]} "phone_number").
  - apply tracked_cases. left. reflexivity.
  - reflexivity.
  - intros Hempty. apply (f_equal (λ d : doc, d !! "city")) in Hempty.
    vm_compute in Hempty. discriminate.
  - vm_compute. discriminate.
  - reflexivity.
Defined.

(** ** What a payload and its update document hold (C9, C10) *)



(** C10: every update document that [bulk_update_users] builds sets
    [last_synced], and besides it only tracked fields whose payload value is
    not absent, to that value; the request never upserts. When all three
    tracked values of the payload are absent, the update is
    [{last_synced}] alone, and applying it leaves every other field of the
    matched document as it was. *)
Theorem C10_update_sets_last_synced_and_present_fields
    (updates : list UserUpdate) (op : operation) :
  op ∈ build_operations updates →
  ∃ p, p ∈ updates ∧
    op_filter op = user_id p ∧ op_upsert op = false ∧
    op_set op !! "last_synced" = Some (last_synced p) ∧
    (∀ k v, op_set op !! k = Some v →
       k = "last_synced" ∨ (k ∈ tracked ∧ v = payload_field p k ∧ v ≠ VNone)) ∧
    (phone_number p = VNone → city p = VNone → state p = VNone →
       op_set op = {[ "last_synced" := last_synced p ]} ∧
       ∀ (d : doc) k, k ≠ "last_synced" → apply_set (op_set op) d !! k = d !! k).
Proof.
  unfold build_operations. intros (p & -> & Hp)%list_elem_of_fmap.
  exists p. cbn. split_and!; try reflexivity; try exact Hp.
  - rewrite update_doc_lookup. by rewrite decide_True.
  - intros k v. rewrite update_doc_lookup.
    destruct (decide (k = "last_synced")) as [->|Hk]; [auto|].
    case_decide as Htracked; [|discriminate].
    intros [= <-]. right. destruct Htracked. auto.
  - intros Hphone Hcity Hstate.
    assert (update_doc p = {[ "last_synced" := last_synced p ]}) as ->.
    { unfold update_doc. rewrite Hphone, Hcity, Hstate. reflexivity. }
    split; [reflexivity|].
    intros d k Hk. unfold apply_set.
    rewrite lookup_union_r; [reflexivity|]. by rewrite lookup_singleton_ne.
Qed.

Lemma C10_update_sets_last_synced_and_present_fields_witness :
  ∃ p, p ∈ [timestamp_only] ∧
    op_filter (build_operation timestamp_only) = user_id p ∧
    op_upsert (build_operation timestamp_only) = false ∧
    op_set (build_operation timestamp_only) !! "last_synced" = Some (last_synced p) ∧
    (∀ k v, op_set (build_operation timestamp_only) !! k = Some v →
       k = "last_synced" ∨ (k ∈ tracked ∧ v = payload_field p k ∧ v ≠ VNone)) ∧
    (phone_number p = VNone → city p = VNone → state p = VNone →
       op_set (build_operation timestamp_only) = {[ "last_synced" := last_synced p ]} ∧
       ∀ (d : doc) k, k ≠ "last_synced" →
         apply_set (op_set (build_operation timestamp_only)) d !! k = d !! k).
Proof.
  apply (C10_update_sets_last_synced_and_present_fields
           [timestamp_only] (build_operation timestamp_only)).
  apply list_elem_of_here.
Defined.

(** ** The results of one run *)

Lemma run_units_length net ck (users : list doc) :
  length (run_units net ck users) = length users.
Proof. unfold run_units, gather. by rewrite length_fmap, length_imap. Qed.

Lemma run_units_lookup net ck (users : list doc) (i : nat) :
  run_units net ck users !! i =
    (λ user, match fetch_and_prepare_update net (unit_time ck i) user with
             | Return v => GValue v
             | Raise e => GException e
             end) <$> users !! i.
Proof.
  unfold run_units, gather. rewrite list_lookup_fmap, list_lookup_imap.
  by destruct (users !! i).
Qed.

(** No task of a run ends with an exception object in the result list. *)
Lemma run_units_no_exception net ck (users : list doc) (r : gathered) :
  r ∈ run_units net ck users → is_exception r = false.
Proof.
  intros (i & Hi)%list_elem_of_lookup. rewrite run_units_lookup in Hi.
  destruct (users !! i) as [user|]; [|discriminate]. cbn in Hi.
  destruct (fetch_never_raises net (unit_time ck i) user) as [v Hv].
  rewrite Hv in Hi. by injection Hi as <-.
Qed.

(** The two counters of the statistics split the result list. *)
Lemma checked_plus_errors (results : list gathered) :
  length (filter (λ r, is_exception r ≠ true) results)
  + length (filter (λ r, is_exception r = true) results) = length results.
Proof.
  induction results as [|r results IH]; [reflexivity|].
  rewrite !filter_cons.
  destruct (is_exception r); repeat case_decide; try done; cbn; lia.
Qed.

Lemma statistics_checked_plus_errors total results modified ck :
  users_checked (statistics total results modified ck)
  + errors (statistics total results modified ck) = length results.
Proof. cbn. apply checked_plus_errors. Qed.

Lemma no_exception_errors_zero (results : list gathered) :
  (∀ r, r ∈ results → is_exception r = false) →
  length (filter (λ r, is_exception r = true) results) = 0.
Proof.
  induction results as [|r results IH]; intros Hall; [reflexivity|].
  rewrite filter_cons.
  rewrite (Hall r) by apply list_elem_of_here.
  rewrite decide_False by discriminate.
  apply IH. intros r' Hr'. apply Hall. by apply list_elem_of_further.
Qed.

Section RunProperties.
Context {Store : Type} `{Collection Store}.

(** With or without payloads, the modified count of a run is what
    [bulk_update_users] gives for the collected payloads. *)
Lemma sync_users_listed BATCH_SIZE net ck (st : Store) users :
  get_all_users st = Return users →
  (sync_users BATCH_SIZE net ck st).2 =
    match (bulk_update_users BATCH_SIZE st
             (collect_updates (run_units net ck users))).2 with
    | Return modified_count =>
        Return (statistics (length users) (run_units net ck users) modified_count ck)
    | Raise e => Raise e
    end.
Proof.
  intros Hlist. unfold sync_users. rewrite Hlist.
  destruct (collect_updates (run_units net ck users)) as [|u updates];
    [reflexivity|].
  destruct (bulk_update_users _ _ _) as [[st1 issued1] [n|e]]; reflexivity.
Qed.

(** A run that returns has listed the users and computed its statistics
    from the gathered results. *)
Lemma sync_users_returns_inv BATCH_SIZE net ck (st : Store) s :
  (sync_users BATCH_SIZE net ck st).2 = Return s →
  ∃ users modified_count,
    get_all_users st = Return users ∧
    s = statistics (length users) (run_units net ck users) modified_count ck.
Proof.
  destruct (get_all_users st) as [users|e] eqn:Hlist.
  - rewrite (sync_users_listed _ _ _ _ _ Hlist).
    destruct (bulk_update_users _ _ _).2 as [n|e]; [|discriminate].
    intros [= <-]. eauto.
  - unfold sync_users. rewrite Hlist. discriminate.
Qed.

(** The [errors] entry of the statistics is zero in every run that
    returns: the unit of work turns every exception into [None]. *)
Lemma sync_users_errors_zero BATCH_SIZE net ck (st : Store) s :
  (sync_users BATCH_SIZE net ck st).2 = Return s →
  errors s = 0 ∧ users_checked s = total_users s.
Proof.
  intros (users & n & _ & ->)%sync_users_returns_inv.
  pose proof (statistics_checked_plus_errors (length users)
                (run_units net ck users) n ck) as Hsum.
  assert (errors (statistics (length users) (run_units net ck users) n ck) = 0)
    as Hzero by (apply no_exception_errors_zero, run_units_no_exception).
  rewrite run_units_length in Hsum. cbn [total_users statistics] in *. lia.
Qed.
End RunProperties.

(** ** Failing lookups (C1) *)

(** C1 does not hold of the code. Two users are listed; every request for
    A fails with a client error, so the lookup for A ends in [RetryError]
    after its three attempts, while the lookup for B succeeds. The unit of
    A catches the exception and returns [None]: the run reports
    [errors = 0] and [users_checked = 2], where C1 asks for [errors = 1] and
    [users_checked = 1]. Persistence receives the payload of B alone. *)
Theorem C1_failed_lookup_is_counted_as_checked :
  get_user_info net_down_for_A (user_id_of alice) = Raise RetryError ∧
  fetch_and_prepare_update net_down_for_A 1 alice = Return None ∧
  run_units net_down_for_A sample_clock [alice; bob] =
    [GValue None;
     GValue (Some (mkUserUpdate (VStr "B") (VStr "999") VNone VNone (VDatetime 2)))] ∧
  (sync_users 100 net_down_for_A sample_clock (mkMongo [alice; bob] false [])).2 =
    Return {| total_users := 2; users_checked := 2; users_updated := 1;
              errors := 0; duration_seconds := 10 |}.
Proof. split_and!; vm_compute; reflexivity. Qed.

(** ** The counters of the statistics (C5) *)

(** C5, as stated, fails: no list of results makes the two counters miss
    the total. [gather] returns one result per task, the total is the
    number of tasks, and the two counters select by a test and by its
    negation. *)
Lemma C5_counterexample :
  (¬ ∃ (results : list gathered) (modified_count : nat) (ck : clock),
       let s := statistics (length results) results modified_count ck in
       users_checked s + errors s ≠ total_users s) ∧
  (¬ ∃ BATCH_SIZE net ck (st : mongo) s,
       (sync_users BATCH_SIZE net ck st).2 = Return s ∧
       users_checked s + errors s ≠ total_users s).
Proof.
  split.
  - intros (results & n & ck & Hbad). apply Hbad.
    cbn. apply checked_plus_errors.
  - intros (B & net & ck & st & s & Hrun & Hbad). apply Hbad.
    apply sync_users_errors_zero in Hrun as [-> ->]. lia.
Qed.

(** C5, amended: in every run of [sync_users] that returns statistics,
    [users_checked + errors = total_users]. *)
Theorem C5_checked_plus_errors_is_total {Store : Type} `{Collection Store}
    BATCH_SIZE net ck (st : Store) (s : stats) :
  (sync_users BATCH_SIZE net ck st).2 = Return s →
  users_checked s + errors s = total_users s.
Proof.
  intros (users & n & _ & ->)%sync_users_returns_inv.
  rewrite statistics_checked_plus_errors. cbn. apply run_units_length.
Qed.

Lemma C5_checked_plus_errors_is_total_witness :
  let s := {| total_users := 3; users_checked := 3; users_updated := 1;
              errors := 0; duration_seconds := 10 |} in
  users_checked s + errors s = total_users s.
Proof.
  apply (C5_checked_plus_errors_is_total 100 net_scenario sample_clock sample_store).
  vm_compute. reflexivity.
Defined.

(** ** Not found (C7) *)

(** Taking one entry out of a list lowers a count by that entry alone. *)
Lemma length_filter_delete {A} (P : A → Prop) `{∀ x, Decision (P x)}
    (l : list A) (i : nat) (x : A) :
  l !! i = Some x →
  length (filter P l)
  = length (filter P (delete i l)) + (if decide (P x) then 1 else 0).
Proof.
  revert i. induction l as [|y l IH]; intros i Hi; [done|].
  destruct i as [|i]; cbn in Hi.
  - injection Hi as ->. change (delete 0 (x :: l)) with l.
    rewrite filter_cons. case_decide; cbn [length]; lia.
  - change (delete (S i) (y :: l)) with (y :: delete i l).
    rewrite !filter_cons. specialize (IH i Hi).
    destruct (decide (P y)); cbn [length]; lia.
Qed.

(** An entry that is no payload can be taken out of the results without
    changing the payloads collected. *)
Lemma collect_updates_delete (results : list gathered) (i : nat) (r : gathered) :
  results !! i = Some r →
  as_UserUpdate r = None →
  collect_updates results = collect_updates (delete i results).
Proof.
  unfold collect_updates. revert i.
  induction results as [|r' results IH]; intros i Hi Hr; [done|].
  destruct i as [|i]; cbn in Hi.
  - injection Hi as ->. change (delete 0 (r :: results)) with results.
    cbn. by rewrite Hr.
  - change (delete (S i) (r' :: results)) with (r' :: delete i results).
    cbn. by rewrite (IH i Hi Hr).
Qed.

(** What a run does to the store and which calls it makes is what
    [bulk_update_users] does with the collected payloads. *)
Lemma sync_users_listed_effects {Store : Type} `{Collection Store}
    BATCH_SIZE net ck (st : Store) users :
  get_all_users st = Return users →
  (sync_users BATCH_SIZE net ck st).1 =
    (bulk_update_users BATCH_SIZE st (collect_updates (run_units net ck users))).1.
Proof.
  intros Hlist. unfold sync_users. rewrite Hlist.
  destruct (collect_updates (run_units net ck users)) as [|u updates];
    [reflexivity|].
  destruct (bulk_update_users _ _ _) as [[st1 issued1] [n|e]]; reflexivity.
Qed.

(** C7: when the lookup for a listed record returns no attributes, its unit
    returns [None], and that is the entry of the record in the result list.
    The record is counted in [users_checked] and not in [errors]: both in
    the statistics computed from the results and in the statistics of every
    run of [sync_users] that returns, [users_checked] is one more than the
    count over the other results and [errors] is the count over the other
    results. The record gives no payload to persistence: the payloads
    collected are those of the other results, and the store and the
    [bulk_write] calls of the run are those of [bulk_update_users] on the
    payloads of the other results. *)
Theorem C7_not_found_is_not_an_error {Store : Type} `{Collection Store}
    BATCH_SIZE net ck (st : Store) (users : list doc) (i : nat) (user : doc) :
  get_all_users st = Return users →
  users !! i = Some user →
  get_user_info net (user_id_of user) = Return None →
  fetch_and_prepare_update net (unit_time ck i) user = Return None ∧
  run_units net ck users !! i = Some (GValue None) ∧
  (∀ modified_count,
     users_checked (statistics (length users) (run_units net ck users) modified_count ck)
     = S (users_checked (statistics (length users)
                           (delete i (run_units net ck users)) modified_count ck)) ∧
     errors (statistics (length users) (run_units net ck users) modified_count ck)
     = errors (statistics (length users)
                 (delete i (run_units net ck users)) modified_count ck)) ∧
  (∀ s, (sync_users BATCH_SIZE net ck st).2 = Return s →
     users_checked s
     = S (length (filter (λ r, is_exception r ≠ true)
                    (delete i (run_units net ck users)))) ∧
     errors s
     = length (filter (λ r, is_exception r = true)
                 (delete i (run_units net ck users)))) ∧
  collect_updates (run_units net ck users)
  = collect_updates (delete i (run_units net ck users)) ∧
  (sync_users BATCH_SIZE net ck st).1
  = (bulk_update_users BATCH_SIZE st
       (collect_updates (delete i (run_units net ck users)))).1.
Proof.
  intros Hlist Hi Hlookup.
  assert (fetch_and_prepare_update net (unit_time ck i) user = Return None) as Hunit.
  { unfold fetch_and_prepare_update. rewrite Hlookup. reflexivity. }
  assert (run_units net ck users !! i = Some (GValue None)) as Hres.
  { rewrite run_units_lookup, Hi. cbn. by rewrite Hunit. }
  pose proof (length_filter_delete (λ r, is_exception r ≠ true) _ _ _ Hres)
    as Hchecked.
  pose proof (length_filter_delete (λ r, is_exception r = true) _ _ _ Hres)
    as Herrors.
  rewrite decide_True in Hchecked by discriminate.
  rewrite decide_False in Herrors by discriminate.
  pose proof (collect_updates_delete _ _ _ Hres eq_refl) as Hpayloads.
  split_and!; [exact Hunit|exact Hres| | |exact Hpayloads|].
  - intros modified_count. cbn [statistics users_checked errors]. lia.
  - intros s Hrun. rewrite (sync_users_listed _ _ _ _ _ Hlist) in Hrun.
    destruct (bulk_update_users _ _ _).2 as [n|e]; [|discriminate].
    injection Hrun as <-. cbn [statistics users_checked errors]. lia.
  - rewrite <- Hpayloads. by apply sync_users_listed_effects.
Qed.

(** C is not found: of the three results, two others are counted besides
    it, and the one payload written is that of B. *)
Lemma C7_not_found_is_not_an_error_witness :
  fetch_and_prepare_update net_scenario (unit_time sample_clock 2) (project carol)
  = Return None ∧
  run_units net_scenario sample_clock listed_sample !! 2 = Some (GValue None) ∧
  (∀ modified_count,
     users_checked (statistics (length listed_sample)
                      (run_units net_scenario sample_clock listed_sample)
                      modified_count sample_clock)
     = S (users_checked (statistics (length listed_sample)
                           (delete 2 (run_units net_scenario sample_clock listed_sample))
                           modified_count sample_clock)) ∧
     errors (statistics (length listed_sample)
               (run_units net_scenario sample_clock listed_sample)
               modified_count sample_clock)
     = errors (statistics (length listed_sample)
                 (delete 2 (run_units net_scenario sample_clock listed_sample))
                 modified_count sample_clock)) ∧
  (∀ s, (sync_users 100 net_scenario sample_clock sample_store).2 = Return s →
     users_checked s
     = S (length (filter (λ r, is_exception r ≠ true)
                    (delete 2 (run_units net_scenario sample_clock listed_sample)))) ∧
     errors s
     = length (filter (λ r, is_exception r = true)
                 (delete 2 (run_units net_scenario sample_clock listed_sample)))) ∧
  collect_updates (run_units net_scenario sample_clock listed_sample)
  = collect_updates (delete 2 (run_units net_scenario sample_clock listed_sample)) ∧
  (sync_users 100 net_scenario sample_clock sample_store).1
  = (bulk_update_users 100 sample_store
       (collect_updates
          (delete 2 (run_units net_scenario sample_clock listed_sample)))).1.
Proof.
  apply (C7_not_found_is_not_an_error 100 net_scenario sample_clock sample_store
           listed_sample 2 (project carol)).
  - vm_compute. reflexivity.
  - vm_compute. reflexivity.
  - vm_compute. reflexivity.
Defined.

(** ** Persistence faults (C8) *)

(** C8: once the users are listed, an exception raised by the batched
    persistence step is the outcome of [sync_users], which then returns no
    statistics. A successful run returns complete statistics: when
    persistence returns a modified count (or is skipped for want of
    payloads, the count being 0), [sync_users] returns the statistics whose
    five entries are the number of listed users, the two counters over the
    results, that modified count, and the elapsed time; and a run returns
    no other statistics than these. *)
Theorem C8_persistence_fault_is_fatal {Store : Type} `{Collection Store}
    BATCH_SIZE net ck (st : Store) (users : list doc) :
  get_all_users st = Return users →
  (∀ e, (bulk_update_users BATCH_SIZE st
           (collect_updates (run_units net ck users))).2 = Raise e →
        (sync_users BATCH_SIZE net ck st).2 = Raise e ∧
        ∀ s, (sync_users BATCH_SIZE net ck st).2 ≠ Return s) ∧
  (∀ modified_count,
     (bulk_update_users BATCH_SIZE st
        (collect_updates (run_units net ck users))).2 = Return modified_count →
     (sync_users BATCH_SIZE net ck st).2 =
       Return {| total_users := length users;
                 users_checked :=
                   length (filter (λ r, is_exception r ≠ true) (run_units net ck users));
                 users_updated := modified_count;
                 errors :=
                   length (filter (λ r, is_exception r = true) (run_units net ck users));
                 duration_seconds := (end_time ck - start_time ck)%Z |}) ∧
  (∀ s, (sync_users BATCH_SIZE net ck st).2 = Return s →
        ∃ modified_count,
          (bulk_update_users BATCH_SIZE st
             (collect_updates (run_units net ck users))).2 = Return modified_count ∧
          s = {| total_users := length users;
                 users_checked :=
                   length (filter (λ r, is_exception r ≠ true) (run_units net ck users));
                 users_updated := modified_count;
                 errors :=
                   length (filter (λ r, is_exception r = true) (run_units net ck users));
                 duration_seconds := (end_time ck - start_time ck)%Z |}).
Proof.
  intros Hlist. rewrite (sync_users_listed _ _ _ _ _ Hlist).
  destruct (bulk_update_users _ _ _).2 as [n|e0]; split_and!.
  - intros e [=].
  - intros m [= <-]. reflexivity.
  - intros s [= <-]. exists n. split; reflexivity.
  - intros e [= <-]. split; [reflexivity|discriminate].
  - intros m [=].
  - intros s [=].
Qed.

(** A server fault at the first bulk write ends the run without
    statistics; without the fault the same run returns them. *)
Lemma C8_persistence_fault_is_fatal_witness :
  ((sync_users 100 net_scenario sample_clock failing_store).2 = Raise PyMongoError ∧
   ∀ s, (sync_users 100 net_scenario sample_clock failing_store).2 ≠ Return s) ∧
  (sync_users 100 net_scenario sample_clock sample_store).2 =
    Return {| total_users := length listed_sample;
              users_checked :=
                length (filter (λ r, is_exception r ≠ true)
                          (run_units net_scenario sample_clock listed_sample));
              users_updated := 1;
              errors :=
                length (filter (λ r, is_exception r = true)
                          (run_units net_scenario sample_clock listed_sample));
              duration_seconds := (end_time sample_clock - start_time sample_clock)%Z |}.
Proof.
  split.
  - destruct (C8_persistence_fault_is_fatal 100 net_scenario sample_clock
                failing_store listed_sample) as (Hfatal & _ & _).
    + vm_compute. reflexivity.
    + apply Hfatal. vm_compute. reflexivity.
  - destruct (C8_persistence_fault_is_fatal 100 net_scenario sample_clock
                sample_store listed_sample) as (_ & Hreturns & _).
    + vm_compute. reflexivity.
    + apply Hreturns. vm_compute. reflexivity.
Defined.

(** ** Batches (C4) *)


Section BatchProperties.
Context {Store : Type} `{Collection Store}.



End BatchProperties.



(** ** The concurrency bound (C6) *)

(** Replacing one entry of a list changes a count by that entry alone. *)
Lemma length_filter_insert {A} (P : A → Prop) `{∀ x, Decision (P x)}
    (l : list A) (i : nat) (p q : A) :
  l !! i = Some p →
  length (filter P (<[i := q]> l)) + (if decide (P p) then 1 else 0)
  = length (filter P l) + (if decide (P q) then 1 else 0).
Proof.
  revert i. induction l as [|x l IH]; intros i Hi; [done|].
  destruct i as [|i]; cbn in Hi.
  - injection Hi as ->. change (<[0 := q]> (p :: l)) with (q :: l).
    rewrite !filter_cons. repeat case_decide; cbn [length]; lia.
  - specialize (IH i Hi).
    change (<[S i := q]> (x :: l)) with (x :: <[i := q]> l).
    rewrite !filter_cons. destruct (decide (P x)); cbn [length]; lia.
Qed.

Lemma holding_replicate_Waiting (m : nat) :
  length (filter (λ p, holds_slot p = true) (replicate m Waiting)) = 0.
Proof.
  induction m as [|m IH]; [reflexivity|].
  cbn [replicate]. rewrite filter_cons. by rewrite decide_False.
Qed.

(** A unit inside the lookup holds a slot. *)
Lemma in_flight_le_holding (s : sem_state) : in_flight s ≤ holding s.
Proof.
  unfold in_flight, holding. induction (units s) as [|p l IH]; [done|].
  rewrite !filter_cons. destruct p; repeat case_decide; cbn in *; try done; lia.
Qed.

(** Every step keeps the counter and the slots in use in balance. *)
Lemma advance_balance (s s' : sem_state) (i : nat) :
  advance s i = Some s' →
  sem_value s' + holding s' = sem_value s + holding s.
Proof.
  unfold advance, holding.
  destruct (units s !! i) as [[| | |]|] eqn:Hi; try discriminate.
  - destruct (sem_value s) as [|v]; [discriminate|]. intros [= <-]. cbn.
    pose proof (length_filter_insert (λ p, holds_slot p = true)
                  (units s) i Waiting Delaying Hi) as Hcount.
    rewrite decide_False, decide_True in Hcount by done. lia.
  - intros [= <-]. cbn.
    pose proof (length_filter_insert (λ p, holds_slot p = true)
                  (units s) i Delaying Fetching Hi) as Hcount.
    rewrite !decide_True in Hcount by done. lia.
  - intros [= <-]. cbn.
    pose proof (length_filter_insert (λ p, holds_slot p = true)
                  (units s) i Fetching Finished Hi) as Hcount.
    rewrite decide_True, decide_False in Hcount by done. lia.
Qed.

Lemma run_schedule_balance (schedule : list nat) (s : sem_state) :
  sem_value (run_schedule s schedule) + holding (run_schedule s schedule)
  = sem_value s + holding s.
Proof.
  revert s. induction schedule as [|i schedule IH]; intros s; [reflexivity|].
  cbn [run_schedule]. rewrite IH.
  destruct (advance s i) as [s'|] eqn:Hstep; [|reflexivity].
  cbn. by apply advance_balance in Hstep.
Qed.

(** C6: with a semaphore of capacity [N] and any number [m] of units, in
    every state the event loop can reach, at most [N] units are inside
    their lookup; the counter and the slots in use add up to [N], and a
    unit that waits for a slot can go on exactly when fewer than [N] units
    hold one. *)
Theorem C6_concurrency_bound (N m : nat) (schedule : list nat) (i : nat) :
  in_flight (run_schedule (sem_init N m) schedule) ≤ N ∧
  sem_value (run_schedule (sem_init N m) schedule)
    + holding (run_schedule (sem_init N m) schedule) = N ∧
  (units (run_schedule (sem_init N m) schedule) !! i = Some Waiting →
   (advance (run_schedule (sem_init N m) schedule) i = None
    ↔ holding (run_schedule (sem_init N m) schedule) = N)).
Proof.
  pose proof (run_schedule_balance schedule (sem_init N m)) as Hbal.
  unfold holding at 2 in Hbal. cbn [sem_init units sem_value] in Hbal.
  rewrite holding_replicate_Waiting, Nat.add_0_r in Hbal.
  pose proof (in_flight_le_holding (run_schedule (sem_init N m) schedule)) as Hle.
  split_and!; [lia|exact Hbal|].
  intros Hwait. unfold advance. rewrite Hwait.
  destruct (sem_value (run_schedule (sem_init N m) schedule)) as [|v].
  - split; [lia|done].
  - split; [discriminate|lia].
Qed.

(** Capacity 2, four units: after units 0 and 1 took their slots, unit 2
    waits; it goes on once unit 0 has finished. *)
Lemma C6_concurrency_bound_witness :
  advance (run_schedule (sem_init 2 4) [0; 1; 0; 1]) 2 = None ∧
  in_flight (run_schedule (sem_init 2 4) [0; 1; 0; 1]) = 2 ∧
  advance (run_schedule (sem_init 2 4) [0; 1; 0; 1; 0]) 2
    = Some (mkSem 0 [Finished; Fetching; Delaying; Waiting]).
Proof.
  split_and!; [|reflexivity|reflexivity].
  destruct (C6_concurrency_bound 2 4 [0; 1; 0; 1] 2) as (_ & _ & Hblocked).
  apply Hblocked; reflexivity.
Defined.

(** * Further properties of the code *)

(** ** api_client.py: the retried lookup *)

(** One attempt lets out a client error and nothing else. *)
Lemma attempt_raise_inv (r : http_reply) (e : exn) :
  get_user_info_attempt r = Raise e → e = ClientError.
Proof.
  unfold get_user_info_attempt. destruct r as [status body| |];
    [|congruence|discriminate].
  destruct (status =? 200); [discriminate|].
  destruct (status =? 404); [discriminate|].
  destruct (400 <=? status); [congruence|discriminate].
Qed.

(** The three attempts, spelled out. *)
Lemma get_user_info_unfold net uid :
  get_user_info net uid =
    match get_user_info_attempt (net uid 0) with
    | Return a => Return a
    | Raise _ =>
        match get_user_info_attempt (net uid 1) with
        | Return a => Return a
        | Raise _ =>
            match get_user_info_attempt (net uid 2) with
            | Return a => Return a
            | Raise _ => Raise RetryError
            end
        end
    end.
Proof.
  unfold get_user_info. cbn [retry].
  destruct (get_user_info_attempt (net uid 0)) as [a|e0] eqn:H0; [reflexivity|].
  apply attempt_raise_inv in H0 as ->. cbn [retryable].
  destruct (get_user_info_attempt (net uid 1)) as [a|e1] eqn:H1; [reflexivity|].
  apply attempt_raise_inv in H1 as ->. cbn [retryable].
  destruct (get_user_info_attempt (net uid 2)) as [a|e2] eqn:H2; [reflexivity|].
  apply attempt_raise_inv in H2 as ->. reflexivity.
Qed.

Lemma lt_3_cases (n : nat) : n < 3 ↔ n = 0 ∨ n = 1 ∨ n = 2.
Proof. lia. Qed.


(** X2: the lookup makes at most three requests: two services that answer
    the first three requests for an identifier alike give the same
    result. *)
Theorem X2_lookup_makes_at_most_three_attempts (net net' : network) uid :
  (∀ n, n < 3 → net uid n = net' uid n) →
  get_user_info net uid = get_user_info net' uid.
Proof.
  intros Hsame. rewrite !get_user_info_unfold.
  rewrite (Hsame 0), (Hsame 1), (Hsame 2) by lia. reflexivity.
Qed.

Lemma X2_lookup_makes_at_most_three_attempts_witness :
  get_user_info net_scenario (VStr "B")
  = get_user_info (λ uid n, if decide (n < 3) then net_scenario uid n else ClientFailure)
      (VStr "B").
Proof.
  apply (X2_lookup_makes_at_most_three_attempts net_scenario
           (λ uid n, if decide (n < 3) then net_scenario uid n else ClientFailure)).
  intros n Hn. rewrite decide_True by exact Hn. reflexivity.
Defined.

(** X3: the first attempt that does not end in a client error decides the
    lookup: its result, be it attributes or nothing, is what
    [get_user_info] returns. *)
Theorem X3_first_answer_decides net uid (k : nat) (v : option json) :
  k < 3 →
  (∀ n, n < k → get_user_info_attempt (net uid n) = Raise ClientError) →
  get_user_info_attempt (net uid k) = Return v →
  get_user_info net uid = Return v.
Proof.
  intros Hk Hbefore Hanswer. rewrite get_user_info_unfold.
  apply lt_3_cases in Hk as [->|[->| ->]].
  - by rewrite Hanswer.
  - by rewrite (Hbefore 0), Hanswer by lia.
  - by rewrite (Hbefore 0), (Hbefore 1), Hanswer by lia.
Qed.

Lemma X3_first_answer_decides_witness :
  get_user_info flaky_net (VStr "B")
  = Return (Some (JObject {[ "phone_number" := VStr "999" ]})).
Proof.
  apply (X3_first_answer_decides flaky_net (VStr "B") 2); [lia| |reflexivity].
  intros n Hn. assert (n = 0 ∨ n = 1) as [->| ->] by lia; reflexivity.
Defined.

(** X4: attributes come only from an answer with status 200: when the
    lookup returns a body, one of the first three replies carried it with
    status 200 and every earlier attempt ended in a client error. *)
Theorem X4_attributes_come_from_status_200 net uid (body : json) :
  get_user_info net uid = Return (Some body) →
  ∃ k, k < 3 ∧ net uid k = Reply 200 body ∧
       ∀ n, n < k → get_user_info_attempt (net uid n) = Raise ClientError.
Proof.
  assert (∀ r, get_user_info_attempt r = Return (Some body) → r = Reply 200 body)
    as Hinv.
  { unfold get_user_info_attempt. intros [status b| |]; [|discriminate..].
    destruct (Nat.eqb_spec status 200) as [->|_]; [congruence|].
    destruct (status =? 404); [discriminate|].
    destruct (400 <=? status); discriminate. }
  rewrite get_user_info_unfold.
  destruct (get_user_info_attempt (net uid 0)) as [a|e0] eqn:H0.
  { intros [= ->]. exists 0. split_and!; [lia|by apply Hinv|lia]. }
  apply attempt_raise_inv in H0 as ?; subst e0.
  destruct (get_user_info_attempt (net uid 1)) as [a|e1] eqn:H1.
  { intros [= ->]. exists 1. split_and!; [lia|by apply Hinv|].
    intros n Hn. by replace n with 0 by lia. }
  apply attempt_raise_inv in H1 as ?; subst e1.
  destruct (get_user_info_attempt (net uid 2)) as [a|e2] eqn:H2; [|discriminate].
  intros [= ->]. exists 2. split_and!; [lia|by apply Hinv|].
  intros n Hn. assert (n = 0 ∨ n = 1) as [->| ->] by lia; assumption.
Qed.

Lemma X4_attributes_come_from_status_200_witness :
  ∃ k, k < 3 ∧
       flaky_net (VStr "B") k = Reply 200 (JObject {[ "phone_number" := VStr "999" ]}) ∧
       ∀ n, n < k → get_user_info_attempt (flaky_net (VStr "B") n) = Raise ClientError.
Proof.
  apply (X4_attributes_come_from_status_200 flaky_net (VStr "B")). reflexivity.
Defined.

(** ** sync_service.py: identifiers and payloads *)

(** X5: the identifier of a record is its [user_id] when that is truthy,
    and the text of its [_id] otherwise; it is never [None], and a record
    with neither field gets the identifier ["None"]. *)
Theorem X5_identifier_fallback (user : doc) :
  user_id_of user ≠ VNone ∧
  (truthy (dict_get user "user_id") = true →
   user_id_of user = dict_get user "user_id") ∧
  (truthy (dict_get user "user_id") = false →
   user_id_of user = VStr (py_str (dict_get user "_id"))) ∧
  (user !! "user_id" = None → user !! "_id" = None → user_id_of user = VStr "None").
Proof.
  unfold user_id_of, py_or. split_and!.
  - destruct (truthy (dict_get user "user_id")) eqn:Ht; [|discriminate].
    intros Heq. rewrite Heq in Ht. discriminate.
  - by intros ->.
  - by intros ->.
  - unfold dict_get. by intros -> ->.
Qed.

Lemma X5_identifier_fallback_witness :
  user_id_of {[ "_id" := VObjectId "64d0"; "user_id" := VStr "" ]} = VStr "64d0" ∧
  user_id_of {[ "phone_number" := VStr "1" ]} = VStr "None".
Proof.
  split.
  - transitivity
      (VStr (py_str (dict_get ({[ "_id" := VObjectId "64d0"; "user_id" := VStr "" ]} : doc)
                       "_id"))); [|reflexivity].
    apply (X5_identifier_fallback {[ "_id" := VObjectId "64d0"; "user_id" := VStr "" ]}).
    reflexivity.
  - apply (X5_identifier_fallback {[ "phone_number" := VStr "1" ]}); reflexivity.
Defined.

(** X6: every payload carries the identifier of its record and the time it
    was built; the request built from it filters on that identifier, sets
    [last_synced] to that time, and does not upsert. *)
Theorem X6_payload_identifier_and_timestamp net now (user : doc) (p : UserUpdate) :
  fetch_and_prepare_update net now user = Return (Some p) →
  user_id p = user_id_of user ∧
  last_synced p = VDatetime now ∧
  op_filter (build_operation p) = user_id_of user ∧
  op_set (build_operation p) !! "last_synced" = Some (VDatetime now) ∧
  op_upsert (build_operation p) = false.
Proof.
  intros (fetched & _ & _ & ->)%fetch_payload_inv. cbn.
  split_and!; try reflexivity.
  rewrite update_doc_lookup. by rewrite decide_True.
Qed.

Lemma X6_payload_identifier_and_timestamp_witness :
  VStr "B" = user_id_of bob ∧
  VDatetime 2 = VDatetime 2 ∧
  op_filter (build_operation
               (mkUserUpdate (VStr "B") (VStr "999") VNone VNone (VDatetime 2)))
    = user_id_of bob ∧
  op_set (build_operation
            (mkUserUpdate (VStr "B") (VStr "999") VNone VNone (VDatetime 2)))
    !! "last_synced" = Some (VDatetime 2) ∧
  op_upsert (build_operation
               (mkUserUpdate (VStr "B") (VStr "999") VNone VNone (VDatetime 2)))
    = false.
Proof.
  apply (X6_payload_identifier_and_timestamp net_scenario 2 bob
           (mkUserUpdate (VStr "B") (VStr "999") VNone VNone (VDatetime 2))).
  vm_compute. reflexivity.
Defined.

(** X7: unless the lookup returns a JSON object, the unit returns [None]:
    a lookup that raises, that finds nothing, or whose body is some other
    JSON value (a list, a string, a number, null) gives neither a payload
    nor an exception. *)
Theorem X7_no_object_no_payload net now (user : doc) :
  (∀ fetched, get_user_info net (user_id_of user) ≠ Return (Some (JObject fetched))) →
  fetch_and_prepare_update net now user = Return None.
Proof.
  intros Hno. unfold fetch_and_prepare_update.
  destruct (get_user_info net (user_id_of user)) as [[[fetched|t]|]|e];
    [by destruct (Hno fetched)| |reflexivity..].
  cbn. by destruct t.
Qed.

(** The body is a non-empty list. *)
Lemma X7_no_object_no_payload_witness :
  fetch_and_prepare_update (λ _ _, Reply 200 (JOther true)) 1 alice = Return None.
Proof.
  apply (X7_no_object_no_payload (λ _ _, Reply 200 (JOther true)) 1 alice).
  intros fetched. vm_compute. discriminate.
Defined.

(** ** sync_service.py: the run *)

Lemma run_units_all_none net ck (users : list doc) :
  (∀ i user, users !! i = Some user →
             fetch_and_prepare_update net (unit_time ck i) user = Return None) →
  run_units net ck users = replicate (length users) (GValue None).
Proof.
  intros Hnone. apply list_eq. intros i.
  rewrite run_units_lookup.
  destruct (users !! i) as [user|] eqn:Hi; cbn.
  - rewrite (Hnone i user Hi).
    symmetry. apply lookup_replicate_2. by apply lookup_lt_Some in Hi.
  - symmetry. apply lookup_replicate_None. by apply lookup_ge_None in Hi.
Qed.

Lemma checked_all_none (n : nat) :
  length (filter (λ r, is_exception r ≠ true) (replicate n (GValue None))) = n.
Proof.
  induction n as [|n IH]; [reflexivity|].
  cbn [replicate]. rewrite filter_cons, decide_True by discriminate.
  cbn [length]. by rewrite IH.
Qed.

Lemma errors_all_none (n : nat) :
  length (filter (λ r, is_exception r = true) (replicate n (GValue None))) = 0.
Proof.
  induction n as [|n IH]; [reflexivity|].
  cbn [replicate]. by rewrite filter_cons, decide_False by discriminate.
Qed.

Lemma statistics_all_none (n modified : nat) ck :
  statistics n (replicate n (GValue None)) modified ck =
    {| total_users := n; users_checked := n; users_updated := modified;
       errors := 0; duration_seconds := (end_time ck - start_time ck)%Z |}.
Proof. unfold statistics. by rewrite checked_all_none, errors_all_none. Qed.

Lemma collect_updates_all_none (n : nat) :
  collect_updates (replicate n (GValue None)) = [].
Proof. induction n as [|n IH]; [reflexivity|exact IH]. Qed.

Lemma collect_updates_length (results : list gathered) :
  length (collect_updates results) ≤ length results.
Proof.
  unfold collect_updates. induction results as [|r results IH]; [done|].
  cbn. destruct (as_UserUpdate r); cbn; lia.
Qed.

Section RunExtras.
Context {Store : Type} `{Collection Store}.

(** X8: a failure to list the users ends the run with that exception; no
    batch is written and the store is as before. *)
Theorem X8_listing_failure_is_fatal BATCH_SIZE net ck (st : Store) (e : exn) :
  find_all st = Raise e →
  sync_users BATCH_SIZE net ck st = (st, [], Raise e).
Proof.
  intros Hfind. unfold sync_users, get_all_users. by rewrite Hfind.
Qed.

(** X9: when no unit produces a payload (the records are unchanged, not
    found, or their lookups failed), persistence is skipped: no
    [bulk_write] call is made, the store is as before, and the run reports
    every user as checked, none as updated and no error. *)
Theorem X9_no_payload_skips_persistence BATCH_SIZE net ck (st : Store)
    (users : list doc) :
  get_all_users st = Return users →
  (∀ i user, users !! i = Some user →
             fetch_and_prepare_update net (unit_time ck i) user = Return None) →
  sync_users BATCH_SIZE net ck st =
    (st, [],
     Return {| total_users := length users; users_checked := length users;
               users_updated := 0; errors := 0;
               duration_seconds := (end_time ck - start_time ck)%Z |}).
Proof.
  intros Hlist Hnone. unfold sync_users. rewrite Hlist.
  rewrite (run_units_all_none _ _ _ Hnone), collect_updates_all_none.
  by rewrite statistics_all_none.
Qed.

(** X10: in every run that returns, [errors] is 0 and [users_checked] is
    [total_users], whatever the lookups did. *)
Theorem X10_errors_is_always_zero BATCH_SIZE net ck (st : Store) (s : stats) :
  (sync_users BATCH_SIZE net ck st).2 = Return s →
  errors s = 0 ∧ users_checked s = total_users s.
Proof. apply sync_users_errors_zero. Qed.
End RunExtras.

Lemma X8_listing_failure_is_fatal_witness :
  sync_users 100 net_scenario sample_clock (mkMongo [alice; bob] true [])
  = (mkMongo [alice; bob] true [], [], Raise PyMongoError).
Proof.
  apply (X8_listing_failure_is_fatal 100 net_scenario sample_clock
           (mkMongo [alice; bob] true []) PyMongoError).
  reflexivity.
Defined.

(** Every lookup fails; nothing is written. *)
Lemma X9_no_payload_skips_persistence_witness :
  sync_users 100 (λ _ _, ClientFailure) sample_clock sample_store =
    (sample_store, [],
     Return {| total_users := length (map project [alice; bob; carol]);
               users_checked := length (map project [alice; bob; carol]);
               users_updated := 0; errors := 0;
               duration_seconds := (end_time sample_clock - start_time sample_clock)%Z |}).
Proof.
  apply (X9_no_payload_skips_persistence 100 (λ _ _, ClientFailure) sample_clock
           sample_store (map project [alice; bob; carol])).
  - vm_compute. reflexivity.
  - intros i user Hi. unfold fetch_and_prepare_update. reflexivity.
Defined.

Lemma X10_errors_is_always_zero_witness :
  errors {| total_users := 2; users_checked := 2; users_updated := 1;
            errors := 0; duration_seconds := 10 |} = 0 ∧
  users_checked {| total_users := 2; users_checked := 2; users_updated := 1;
                   errors := 0; duration_seconds := 10 |} =
  total_users {| total_users := 2; users_checked := 2; users_updated := 1;
                 errors := 0; duration_seconds := 10 |}.
Proof.
  apply (X10_errors_is_always_zero 100 net_down_for_A sample_clock
           (mkMongo [alice; bob] false [])).
  vm_compute. reflexivity.
Defined.

(** X11: the payloads handed to persistence are at most one per listed
    user, and each is the payload of a listed user: it carries that user's
    identifier and the time read in that user's unit. *)
Theorem X11_payloads_come_from_listed_users net ck (users : list doc) :
  length (collect_updates (run_units net ck users)) ≤ length users ∧
  ∀ p, p ∈ collect_updates (run_units net ck users) →
       ∃ i user, users !! i = Some user ∧
                 fetch_and_prepare_update net (unit_time ck i) user = Return (Some p) ∧
                 user_id p = user_id_of user ∧
                 last_synced p = VDatetime (unit_time ck i).
Proof.
  split.
  - rewrite <- (run_units_length net ck users). apply collect_updates_length.
  - intros p. unfold collect_updates. rewrite list_elem_of_omap.
    intros (r & (i & Hi)%list_elem_of_lookup & Hr).
    rewrite run_units_lookup in Hi.
    destruct (users !! i) as [user|] eqn:Hu; [|discriminate]. cbn in Hi.
    destruct (fetch_and_prepare_update net (unit_time ck i) user)
      as [[p'|]|e] eqn:Hunit; injection Hi as <-; try discriminate.
    cbn in Hr. injection Hr as ->.
    exists i, user. split_and!; [exact Hu|exact Hunit|..];
      apply fetch_payload_inv in Hunit as (fetched & _ & _ & ->); reflexivity.
Qed.

(** ** database.py: the batch size and failures *)

Section BatchExtras.
Context {Store : Type} `{Collection Store}.

(** X12: with a batch size that is not positive nothing is written. The
    size zero raises [ValueError] before any call; a negative size makes
    the loop empty, so [bulk_update_users] returns 0 and a run reports no
    update, whatever payloads there were. *)
Theorem X12_batch_size_not_positive (C : Z) (st : Store) (updates : list UserUpdate) :
  updates ≠ [] →
  (C ≤ 0)%Z →
  bulk_update_users C st updates
  = (st, [], if (C =? 0)%Z then Raise ValueError else Return 0).
Proof.
  intros Hne HC. unfold bulk_update_users, py_range.
  destruct updates as [|u updates]; [done|].
  destruct (Z.eqb_spec C 0) as [->|Hnz]; [reflexivity|].
  destruct (Z.ltb_spec C 0); [reflexivity|lia].
Qed.



End BatchExtras.

Lemma X12_batch_size_not_positive_witness :
  bulk_update_users (-5) sample_store three_payloads = (sample_store, [], Return 0) ∧
  bulk_update_users 0 sample_store three_payloads = (sample_store, [], Raise ValueError).
Proof.
  split.
  - apply (X12_batch_size_not_positive (-5) sample_store three_payloads);
      [discriminate|lia].
  - apply (X12_batch_size_not_positive 0 sample_store three_payloads);
      [discriminate|lia].
Defined.



(** ** database.py on a MongoDB collection *)

Lemma project_lookup (d : doc) (k : string) :
  project d !! k = if decide (k ∈ projected) then d !! k else None.
Proof.
  unfold project. case_decide as Hk.
  - destruct (d !! k) as [v|] eqn:Hd.
    + by apply map_lookup_filter_Some_2.
    + apply map_lookup_filter_None. by left.
  - apply map_lookup_filter_None. right. intros v _. exact Hk.
Qed.

Lemma project_dict_get (d : doc) (k : string) :
  k ∈ projected → dict_get (project d) k = dict_get d k.
Proof.
  intros Hk. unfold dict_get. by rewrite project_lookup, decide_True.
Qed.

(** X15: the projection of [get_all_users] keeps the five fields [_id],
    [user_id], [phone_number], [city], [state] and drops every other one;
    nothing the unit of work reads is lost: a listed document has the
    identifier of the stored one and gives the same result. *)
Theorem X15_projection_keeps_what_the_unit_reads net now (d : doc) :
  (∀ k, project d !! k = if decide (k ∈ projected) then d !! k else None) ∧
  user_id_of (project d) = user_id_of d ∧
  fetch_and_prepare_update net now (project d) = fetch_and_prepare_update net now d.
Proof.
  assert (user_id_of (project d) = user_id_of d) as Hid.
  { unfold user_id_of.
    rewrite !project_dict_get; [reflexivity|unfold projected; set_solver..]. }
  split_and!; [apply project_lookup|exact Hid|].
  unfold fetch_and_prepare_update. rewrite Hid.
  rewrite !project_dict_get; [reflexivity|unfold projected..];
    rewrite !elem_of_cons; auto 10.
Qed.

Lemma kept_by_refl updates (d : doc) : kept_by updates d d.
Proof. by split. Qed.

Lemma kept_by_trans updates (d1 d2 d3 : doc) :
  kept_by updates d1 d2 → kept_by updates d2 d3 → kept_by updates d1 d3.
Proof.
  intros [Hframe12 Hother12] [Hframe23 Hother23]. split.
  - intros k Hk Ht. by rewrite Hframe23, Hframe12.
  - intros Hnone. specialize (Hother12 Hnone). subst d2. by apply Hother23.
Qed.

Lemma Forall2_kept_by_refl updates (docs : list doc) :
  Forall2 (kept_by updates) docs docs.
Proof. induction docs; constructor; [apply kept_by_refl|done]. Qed.

Lemma update_one_kept updates (p : UserUpdate) (docs : list doc) :
  p ∈ updates →
  Forall2 (kept_by updates) docs (update_one (build_operation p) docs).1.
Proof.
  intros Hp. induction docs as [|d docs IH]; [constructor|].
  cbn [update_one op_filter op_set op_upsert build_operation].
  case_decide as Hmatch.
  - cbn. constructor; [|apply Forall2_kept_by_refl]. split.
    + intros k Hk Ht. unfold apply_set. apply lookup_union_r.
      rewrite update_doc_lookup, decide_False by exact Hk.
      apply decide_False. by intros [? _].
    + intros Hnone. by destruct (Hnone p Hp).
  - destruct (update_one _ docs) as [docs' n] eqn:Hrec. cbn in *.
    constructor; [apply kept_by_refl|exact IH].
Qed.

Lemma apply_batch_kept updates (batch : list UserUpdate) (docs : list doc) :
  batch ⊆ updates →
  Forall2 (kept_by updates) docs (apply_batch (build_operations batch) docs).1.
Proof.
  revert docs. induction batch as [|p batch IH]; intros docs Hsub.
  - apply Forall2_kept_by_refl.
  - cbn [build_operations map apply_batch].
    pose proof (update_one_kept updates p docs) as Hone.
    destruct (update_one (build_operation p) docs) as [docs1 n1].
    specialize (IH docs1).
    unfold build_operations in IH.
    destruct (apply_batch (map build_operation batch) docs1) as [docs2 n2].
    cbn in *. eapply Forall2_trans; [apply kept_by_trans| |].
    + apply Hone. apply Hsub. apply list_elem_of_here.
    + apply IH. intros q Hq. apply Hsub. by apply list_elem_of_further.
Qed.

Lemma slice_build_operations (updates : list UserUpdate) (i j : nat) :
  slice (build_operations updates) i j = build_operations (take (j - i) (drop i updates)).
Proof. unfold slice, build_operations. by rewrite fmap_take, fmap_drop. Qed.

Lemma mongo_bulk_write_kept updates (batch : list UserUpdate) (m : mongo) :
  batch ⊆ updates →
  Forall2 (kept_by updates) (documents m)
    (documents (mongo_bulk_write m (build_operations batch)).1).
Proof.
  intros Hsub. unfold mongo_bulk_write.
  destruct (build_operations batch) as [|op ops] eqn:Hops;
    [apply Forall2_kept_by_refl|].
  rewrite <- Hops.
  pose proof (apply_batch_kept updates batch (documents m) Hsub) as Hkept.
  destruct (outages m) as [|[|] later]; cbn;
    try apply Forall2_kept_by_refl;
    destruct (apply_batch (build_operations batch) (documents m)); exact Hkept.
Qed.

Lemma mongo_write_batches_kept updates (C : Z) (docs0 : list doc) (indices : list nat) :
  ∀ (m : mongo) (total : nat) (issued : list call),
    Forall2 (kept_by updates) docs0 (documents m) →
    Forall2 (kept_by updates) docs0
      (documents (write_batches m (build_operations updates) C indices total issued).1.1).
Proof.
  induction indices as [|i indices IH]; intros m total issued Hkept; [exact Hkept|].
  cbn [write_batches]. rewrite slice_build_operations.
  set (batch := take _ (drop i updates)).
  assert (batch ⊆ updates) as Hsub.
  { unfold batch. etrans; [apply subseteq_take|apply subseteq_drop]. }
  pose proof (mongo_bulk_write_kept updates batch m Hsub) as Hstep.
  change (bulk_write m (build_operations batch))
    with (mongo_bulk_write m (build_operations batch)).
  destruct (mongo_bulk_write m (build_operations batch)) as [m1 [n|e]]; cbn in Hstep.
  - apply IH. eapply Forall2_trans; [apply kept_by_trans|exact Hkept|exact Hstep].
  - cbn. eapply Forall2_trans; [apply kept_by_trans|exact Hkept|exact Hstep].
Qed.

(** X16: on a MongoDB collection [bulk_update_users] creates and deletes no
    document, whatever the batch size and the faults met: the collection
    has as many documents as before, each with its [_id], [user_id] and
    every other field but [last_synced] and the tracked ones as before, and
    a document whose [user_id] is the identifier of no payload is left as
    it was. *)
Theorem X16_mongo_updates_touch_only_their_documents
    (C : Z) (m : mongo) (updates : list UserUpdate) :
  length (documents (bulk_update_users C m updates).1.1) = length (documents m) ∧
  Forall2 (kept_by updates) (documents m)
    (documents (bulk_update_users C m updates).1.1).
Proof.
  assert (Forall2 (kept_by updates) (documents m)
            (documents (bulk_update_users C m updates).1.1)) as Hkept.
  { unfold bulk_update_users. destruct updates as [|u updates];
      [apply Forall2_kept_by_refl|].
    destruct (py_range _ C) as [indices|e]; [|apply Forall2_kept_by_refl].
    apply mongo_write_batches_kept, Forall2_kept_by_refl. }
  split; [|exact Hkept]. symmetry. by eapply Forall2_length.
Qed.

(** ** sync_service.py: the semaphore at its limits *)

(** X17: with [CONCURRENT_REQUESTS = 0] no unit ever gets a slot: whatever
    the event loop does, every unit is still waiting, so no lookup is made
    and [gather] never completes. *)
Theorem X17_capacity_zero_blocks_every_unit (m : nat) (schedule : list nat) :
  run_schedule (sem_init 0 m) schedule = sem_init 0 m.
Proof.
  induction schedule as [|i schedule IH]; [reflexivity|].
  cbn [run_schedule].
  assert (advance (sem_init 0 m) i = None) as ->; [|exact IH].
  unfold advance, sem_init. cbn [units sem_value].
  destruct (replicate m Waiting !! i) as [p|] eqn:Hi; [|reflexivity].
  apply lookup_replicate_1 in Hi as [-> _]. reflexivity.
Qed.

Lemma insert_middle {A} (l1 l2 : list A) (x y : A) :
  <[length l1 := y]> (l1 ++ x :: l2) = l1 ++ y :: l2.
Proof.
  rewrite <- (Nat.add_0_r (length l1)). by rewrite insert_app_r.
Qed.

Lemma advance_middle (c : nat) (l1 l2 : list phase) (p : phase) :
  advance (mkSem c (l1 ++ p :: l2)) (length l1) =
    match p with
    | Waiting =>
        match c with
        | 0 => None
        | S v => Some (mkSem v (l1 ++ Delaying :: l2))
        end
    | Delaying => Some (mkSem c (l1 ++ Fetching :: l2))
    | Fetching => Some (mkSem (S c) (l1 ++ Finished :: l2))
    | Finished => None
    end.
Proof.
  unfold advance. cbn [units sem_value].
  rewrite list_lookup_middle by reflexivity. rewrite !insert_middle.
  reflexivity.
Qed.

(** A unit that waits with a free slot runs through its three steps and
    hands the slot back. *)
Lemma run_unit_to_completion (v : nat) (l1 l2 : list phase) (rest : list nat) :
  run_schedule (mkSem (S v) (l1 ++ Waiting :: l2))
    ([length l1; length l1; length l1] ++ rest)
  = run_schedule (mkSem (S v) (l1 ++ Finished :: l2)) rest.
Proof.
  cbn [app run_schedule].
  rewrite advance_middle. cbn [from_option id].
  rewrite advance_middle. cbn [from_option id].
  rewrite advance_middle. reflexivity.
Qed.

Lemma run_remaining_units (v j : nat) :
  ∀ k, run_schedule (mkSem (S v) (replicate k Finished ++ replicate j Waiting))
         (concat ((λ i, [i; i; i]) <$> seq k j))
       = mkSem (S v) (replicate (k + j) Finished).
Proof.
  induction j as [|j IH]; intros k.
  - cbn. by rewrite app_nil_r, Nat.add_0_r.
  - cbn [seq fmap list_fmap concat replicate].
    rewrite <- (length_replicate k Finished) at 2 3 4.
    rewrite run_unit_to_completion.
    rewrite (cons_middle Finished), app_assoc, <- replicate_S_end.
    cbn [app]. rewrite IH. f_equal. f_equal. lia.
Qed.

(** X18: with a capacity of at least one the units cannot block each
    other: run one after the other, every unit finishes, and the semaphore
    is back at its capacity. *)
Theorem X18_units_run_to_completion (N m : nat) :
  1 ≤ N →
  run_schedule (sem_init N m) (one_by_one m) = mkSem N (replicate m Finished).
Proof.
  intros HN. destruct N as [|v]; [lia|].
  unfold sem_init, one_by_one.
  exact (run_remaining_units v m 0).
Qed.

Lemma X18_units_run_to_completion_witness :
  run_schedule (sem_init 2 3) (one_by_one 3) = mkSem 2 (replicate 3 Finished).
Proof. apply (X18_units_run_to_completion 2 3). lia. Defined.

(** ** config.py: validation *)

Lemma missing_nil_iff (c : Config.settings) :
  Config.missing c = [] ↔
  ∀ k v, (k, v) ∈ Config.required_vars c → Config.invalid v = false.
Proof.
  unfold Config.missing. generalize (Config.required_vars c) as l.
  induction l as [|[k v] l IH].
  - split; [intros _ k v Hin; by apply elem_of_nil in Hin|reflexivity].
  - rewrite filter_cons. cbn [snd]. destruct (Config.invalid v) eqn:Hv.
    + rewrite decide_True by reflexivity. split; [discriminate|].
      intros Hall. specialize (Hall k v (list_elem_of_here _ _)). congruence.
    + rewrite decide_False by discriminate. rewrite IH. split.
      * intros Hall k' v' [[= -> ->]|Hin]%elem_of_cons; [exact Hv|by eapply Hall].
      * intros Hall k' v' Hin. eapply Hall. by apply list_elem_of_further.
Qed.

Lemma elem_of_missing (c : Config.settings) (k : string) :
  k ∈ Config.missing c ↔
  ∃ v, (k, v) ∈ Config.required_vars c ∧ Config.invalid v = true.
Proof.
  unfold Config.missing. rewrite list_elem_of_fmap. split.
  - intros ([k' v] & -> & [Hv Hin]%list_elem_of_filter). eauto.
  - intros (v & Hin & Hv). exists (k, v). split; [reflexivity|].
    by apply list_elem_of_filter.
Qed.

Lemma validate_raises_iff (c : Config.settings) (e : exn) :
  Config.validate c = Raise e ↔ e = ValueError ∧ Config.missing c ≠ [].
Proof.
  unfold Config.validate. destruct (Config.missing c); split.
  - discriminate.
  - by intros [_ ?].
  - by intros [= <-].
  - by intros [-> _].
Qed.

Lemma invalid_iff (v : string) :
  Config.invalid v = true ↔ v = "" ∨ String.prefix "your_" v = true.
Proof.
  unfold Config.invalid. rewrite orb_true_iff, bool_decide_eq_true. reflexivity.
Qed.

(** X19: [Config.validate] returns exactly when each of the five required
    settings is non-empty and does not start with [your_]; otherwise it
    raises [ValueError], and the names it reports are those of the
    settings that are empty or start with [your_]. *)
Theorem X19_validate_accepts_exactly_valid_settings (c : Config.settings) :
  (Config.validate c = Return () ↔
   ∀ k v, (k, v) ∈ Config.required_vars c →
          v ≠ "" ∧ String.prefix "your_" v = false) ∧
  (Config.validate c ≠ Return () → Config.validate c = Raise ValueError) ∧
  (∀ k, k ∈ Config.missing c ↔
        ∃ v, (k, v) ∈ Config.required_vars c ∧
             (v = "" ∨ String.prefix "your_" v = true)).
Proof.
  split_and!.
  - transitivity (Config.missing c = []).
    + unfold Config.validate. destruct (Config.missing c); split; done.
    + rewrite missing_nil_iff. split; intros Hall k v Hin.
      * specialize (Hall k v Hin). unfold Config.invalid in Hall.
        apply orb_false_iff in Hall as [Hempty Hprefix].
        by apply bool_decide_eq_false in Hempty.
      * destruct (Hall k v Hin) as [Hempty Hprefix]. unfold Config.invalid.
        by rewrite Hprefix, bool_decide_eq_false_2.
  - unfold Config.validate. by destruct (Config.missing c).
  - intros k. rewrite elem_of_missing. by setoid_rewrite invalid_iff.
Qed.

Lemma X19_validate_accepts_exactly_valid_settings_witness :
  Config.validate sample_config = Return () ∧
  Config.validate (Config.mkSettings "mongodb://db" "" "users" "https://x" "your_key")
    = Raise ValueError.
Proof.
  split.
  - apply (X19_validate_accepts_exactly_valid_settings sample_config).
    intros k v Hin. unfold sample_config, Config.required_vars in Hin.
    cbn in Hin. rewrite !elem_of_cons, elem_of_nil in Hin.
    destruct Hin as [[= -> ->]|[[= -> ->]|[[= -> ->]|[[= -> ->]|[[= -> ->]|[]]]]]];
      (split; [discriminate|vm_compute; reflexivity]).
  - apply (X19_validate_accepts_exactly_valid_settings
             (Config.mkSettings "mongodb://db" "" "users" "https://x" "your_key")).
    vm_compute. discriminate.
Defined.

(** X20: the defaults of [DB_NAME] and [API_KEY] are placeholders: an
    environment that leaves one of them unset is rejected by
    [Config.validate], whatever else it sets. *)
Theorem X20_unset_placeholders_are_rejected (env : Config.environ) :
  env !! "DB_NAME" = None ∨ env !! "API_KEY" = None →
  Config.validate (Config.load env) = Raise ValueError.
Proof.
  intros Hunset. apply validate_raises_iff. split; [reflexivity|].
  assert (∃ k, k ∈ Config.missing (Config.load env)) as [k Hk].
  { destruct Hunset as [Hdb|Hkey].
    - exists "DB_NAME". apply elem_of_missing. exists "your_database". split.
      + unfold Config.required_vars, Config.load, Config.getenv. cbn.
        rewrite Hdb. cbn. rewrite !elem_of_cons. auto.
      + vm_compute. reflexivity.
    - exists "API_KEY". apply elem_of_missing. exists "your_api_key". split.
      + unfold Config.required_vars, Config.load, Config.getenv. cbn.
        rewrite Hkey. cbn. rewrite !elem_of_cons. auto 10.
      + vm_compute. reflexivity. }
  intros Hnil. rewrite Hnil in Hk. by apply elem_of_nil in Hk.
Qed.

Lemma X20_unset_placeholders_are_rejected_witness :
  Config.validate (Config.load {[ "API_KEY" := "k3y" ]}) = Raise ValueError.
Proof.
  apply (X20_unset_placeholders_are_rejected {[ "API_KEY" := "k3y" ]}).
  left. reflexivity.
Defined.

(** ** main.py *)

Section MainProperties.
Context {Store : Type} `{Collection Store}.

(** X21: with an invalid configuration [main] does not return: the
    [ValueError] of [Config.validate] is reported, but the [finally] block
    then reads [api_client], which is not bound yet, and
    [UnboundLocalError] leaves [main]. Nothing was connected or closed. *)
Theorem X21_invalid_configuration_ends_in_UnboundLocalError (p : process Store) :
  Config.missing (config p) ≠ [] →
  main p = ([PrintedConfigurationError], RaisedUnboundLocalError).
Proof.
  intros Hmissing. unfold main, main_try, Config.validate.
  destruct (Config.missing (config p)); [done|reflexivity].
Qed.

(** X22: with a valid configuration, whenever [main] ends it has released
    what it opened: it does not end in [UnboundLocalError]; unless the
    client could not be built, the last thing it does is to call [close]
    on the MongoDB client; and it closes the aiohttp session exactly when a
    lookup was made, that is, when the run listed at least one user. *)
Theorem X22_resources_are_released (p : process Store) :
  Config.missing (config p) = [] →
  (main p).2 ≠ Hangs →
  (main p).2 ≠ RaisedUnboundLocalError ∧
  (connection p ≠ BadUri → last (main p).1 = Some MongoCloseCalled) ∧
  (SessionClosed ∈ (main p).1 ↔
   connection p = Connects ∧ (0 ≤ CONCURRENT_REQUESTS p)%Z ∧ lists_users p = true).
Proof.
  intros Hvalid. unfold main, main_try, Config.validate. rewrite Hvalid.
  destruct (connection p).
  - destruct (Z.ltb_spec (CONCURRENT_REQUESTS p) 0) as [Hneg|Hpos].
    { cbn. intros _. split_and!; [done|done|].
      rewrite !elem_of_cons, elem_of_nil. split; [intuition (try congruence; try lia)|]. intros (_ & ? & _). lia. }
    destruct (lists_users p) eqn:Hlists; cbn [andb].
    + destruct (Z.eqb_spec (CONCURRENT_REQUESTS p) 0) as [Hzero|Hnz]; [done|].
      intros _.
      destruct (sync_users _ _ _ _).2 as [s|e]; [|destruct e]; cbn;
        (split_and!; [done|done|]);
        rewrite !elem_of_cons; split; auto; intuition (try congruence; try lia).
    + intros _.
      destruct (sync_users _ _ _ _).2 as [s|e]; [|destruct e]; cbn;
        (split_and!; [done|done|]);
        rewrite ?elem_of_cons, ?elem_of_nil; split; intuition (try congruence; try lia).
  - cbn. intros _. split_and!; [done|done|].
    rewrite elem_of_nil. intuition (try congruence; try lia).
  - cbn. intros _. split_and!; [done|done|].
    rewrite !elem_of_cons, elem_of_nil. intuition (try congruence; try lia).
Qed.

(** X23: the summary is printed exactly when the configuration is valid,
    the connection is made, the semaphore can be built and lets units
    through, and [sync_users] returns; the statistics printed are the ones
    returned, and [main] then returns. *)
Theorem X23_summary_is_the_returned_statistics (p : process Store) (s : stats) :
  PrintedSummary s ∈ (main p).1 ↔
  Config.missing (config p) = [] ∧
  connection p = Connects ∧
  (0 ≤ CONCURRENT_REQUESTS p)%Z ∧
  (lists_users p = true → CONCURRENT_REQUESTS p ≠ 0%Z) ∧
  (sync_users (BATCH_SIZE p) (remote p) (time p) (collection p)).2 = Return s ∧
  (main p).2 = Returned.
Proof.
  unfold main, main_try, Config.validate.
  destruct (Config.missing (config p)) as [|k ks].
  2:{ cbn. rewrite !elem_of_cons, elem_of_nil. intuition (try congruence; try lia). }
  destruct (connection p).
  2,3: cbn; rewrite ?elem_of_cons, ?elem_of_nil; intuition (try congruence; try lia).
  destruct (Z.ltb_spec (CONCURRENT_REQUESTS p) 0) as [Hneg|Hpos].
  { cbn. rewrite !elem_of_cons, elem_of_nil. split; [intuition (try congruence; try lia)|].
    intros (_ & _ & ? & _). lia. }
  destruct (lists_users p) eqn:Hlists; cbn [andb].
  - destruct (Z.eqb_spec (CONCURRENT_REQUESTS p) 0) as [Hzero|Hnz].
    { cbn. rewrite elem_of_nil. intuition (try congruence; try lia). }
    destruct (sync_users _ _ _ _).2 as [s'|e]; [|destruct e]; cbn;
      rewrite ?elem_of_app, ?elem_of_cons, ?elem_of_nil; intuition (try congruence; try lia).
  - destruct (sync_users _ _ _ _).2 as [s'|e]; [|destruct e]; cbn;
      rewrite ?elem_of_app, ?elem_of_cons, ?elem_of_nil; intuition (try congruence; try lia).
Qed.

(** X24: a [ValueError] raised after validation is taken for a
    configuration error: when the semaphore refuses a negative
    [CONCURRENT_REQUESTS], or when [sync_users] raises [ValueError] (a
    batch size of zero with payloads to write), [main] reports a
    configuration error, prints no summary, calls [close] on the MongoDB
    client and returns normally. *)
Theorem X24_ValueError_is_reported_as_configuration_error (p : process Store) :
  Config.missing (config p) = [] →
  connection p = Connects →
  (CONCURRENT_REQUESTS p < 0)%Z ∨
  ((0 < CONCURRENT_REQUESTS p)%Z ∧
   (sync_users (BATCH_SIZE p) (remote p) (time p) (collection p)).2 = Raise ValueError) →
  (main p).2 = Returned ∧
  PrintedConfigurationError ∈ (main p).1 ∧
  last (main p).1 = Some MongoCloseCalled ∧
  ∀ s, PrintedSummary s ∉ (main p).1.
Proof.
  intros Hvalid Hconn Hcase. unfold main, main_try, Config.validate.
  rewrite Hvalid, Hconn. destruct Hcase as [Hneg|[Hpos Hsync]].
  - destruct (Z.ltb_spec (CONCURRENT_REQUESTS p) 0); [|lia]. cbn.
    split_and!; [done| |done|]; [|intros s];
      rewrite !elem_of_cons, elem_of_nil; intuition (try congruence; try lia).
  - destruct (Z.ltb_spec (CONCURRENT_REQUESTS p) 0); [lia|].
    destruct (Z.eqb_spec (CONCURRENT_REQUESTS p) 0); [lia|].
    rewrite andb_false_r, Hsync.
    destruct (lists_users p); cbn;
      (split_and!; [done| |done|]; [|intros s];
       rewrite !elem_of_cons, elem_of_nil; intuition (try congruence; try lia)).
Qed.

(** X25: the exceptions that leave [main]. [UnboundLocalError] leaves it
    exactly when the configuration is invalid. With a valid configuration
    an exception leaves [main] exactly when it is not a [ValueError] and is
    either the [PyMongoError] of a failed connection or the exception that
    [sync_users] raised (the connection made, the semaphore built and
    letting units through). *)
Theorem X25_exceptions_that_leave_main (p : process Store) :
  ((main p).2 = RaisedUnboundLocalError ↔ Config.missing (config p) ≠ []) ∧
  (∀ e, (main p).2 = Raised e ↔
        Config.missing (config p) = [] ∧
        e ≠ ValueError ∧
        ((connection p ≠ Connects ∧ e = PyMongoError) ∨
         (connection p = Connects ∧
          (0 ≤ CONCURRENT_REQUESTS p)%Z ∧
          (lists_users p = true → CONCURRENT_REQUESTS p ≠ 0%Z) ∧
          (sync_users (BATCH_SIZE p) (remote p) (time p) (collection p)).2
          = Raise e))).
Proof.
  unfold main, main_try, Config.validate.
  destruct (Config.missing (config p)) as [|k ks].
  2:{ cbn. split; [split; [discriminate|reflexivity]|].
      intros e. split; [discriminate|]. by intros [? _]. }
  destruct (connection p).
  2,3: cbn; split; [split; [discriminate|done]|]; intros e;
    (split; [intros [= <-]; split_and!; [done|done|left; done]|]);
    intros (_ & _ & [[_ ->]|[? _]]); [reflexivity|discriminate].
  destruct (Z.ltb_spec (CONCURRENT_REQUESTS p) 0) as [Hneg|Hpos].
  { cbn. split; [split; [discriminate|done]|]. intros e.
    split; [discriminate|].
    intros (_ & _ & [[? _]|(_ & ? & _)]); [done|lia]. }
  destruct (lists_users p) eqn:Hlists; cbn [andb].
  - destruct (Z.eqb_spec (CONCURRENT_REQUESTS p) 0) as [Hzero|Hnz].
    { cbn. split; [split; [discriminate|done]|]. intros e.
      split; [discriminate|].
      intros (_ & _ & [[? _]|(_ & _ & Hnz & _)]); [done|]. by destruct Hnz. }
    destruct (sync_users _ _ _ _).2 as [s'|e'] eqn:Hsync.
    { cbn. split; [split; [discriminate|done]|]. intros e.
      split; [discriminate|].
      intros (_ & _ & [[? _]|(_ & _ & _ & ?)]); [done|discriminate]. }
    split; [destruct e'; cbn; (split; [discriminate|done])|].
    intros e. split.
    + destruct e'; cbn; intros [= <-]; split_and!; try done;
        right; split_and!; done.
    + intros (_ & Hne & [[? _]|(_ & _ & _ & [= <-])]); [done|].
      destruct e'; cbn; done.
  - destruct (sync_users _ _ _ _).2 as [s'|e'] eqn:Hsync.
    { cbn. split; [split; [discriminate|done]|]. intros e.
      split; [discriminate|].
      intros (_ & _ & [[? _]|(_ & _ & _ & ?)]); [done|discriminate]. }
    split; [destruct e'; cbn; (split; [discriminate|done])|].
    intros e. split.
    + destruct e'; cbn; intros [= <-]; split_and!; try done;
        right; split_and!; done.
    + intros (_ & Hne & [[? _]|(_ & _ & _ & [= <-])]); [done|].
      destruct e'; cbn; done.
Qed.
End MainProperties.

Lemma X21_invalid_configuration_ends_in_UnboundLocalError_witness :
  main unconfigured_process = ([PrintedConfigurationError], RaisedUnboundLocalError).
Proof.
  apply (X21_invalid_configuration_ends_in_UnboundLocalError unconfigured_process).
  vm_compute. discriminate.
Defined.

Lemma X22_resources_are_released_witness :
  (main sample_process).2 ≠ RaisedUnboundLocalError ∧
  (connection sample_process ≠ BadUri →
   last (main sample_process).1 = Some MongoCloseCalled) ∧
  (SessionClosed ∈ (main sample_process).1 ↔
   connection sample_process = Connects ∧
   (0 ≤ CONCURRENT_REQUESTS sample_process)%Z ∧ lists_users sample_process = true).
Proof.
  apply (X22_resources_are_released sample_process).
  - vm_compute. reflexivity.
  - vm_compute. discriminate.
Defined.

(** The summary of the healthy process: three users checked, one updated. *)
Lemma X23_summary_is_the_returned_statistics_witness :
  PrintedSummary {| total_users := 3; users_checked := 3; users_updated := 1;
                    errors := 0; duration_seconds := 10 |} ∈ (main sample_process).1.
Proof.
  apply (X23_summary_is_the_returned_statistics sample_process).
  split_and!; try (vm_compute; reflexivity).
  - vm_compute. discriminate.
  - intros _. vm_compute. discriminate.
Defined.

Lemma X24_ValueError_is_reported_as_configuration_error_witness :
  (main zero_batch_process).2 = Returned ∧
  PrintedConfigurationError ∈ (main zero_batch_process).1 ∧
  last (main zero_batch_process).1 = Some MongoCloseCalled ∧
  ∀ s, PrintedSummary s ∉ (main zero_batch_process).1.
Proof.
  apply (X24_ValueError_is_reported_as_configuration_error zero_batch_process).
  - vm_compute. reflexivity.
  - reflexivity.
  - right. split; [vm_compute; reflexivity|]. vm_compute. reflexivity.
Defined.

(** The process of an empty environment ends in [UnboundLocalError], the
    one whose database does not answer in [PyMongoError]. *)
Lemma X25_exceptions_that_leave_main_witness :
  (main unconfigured_process).2 = RaisedUnboundLocalError ∧
  (main unreachable_process).2 = Raised PyMongoError.
Proof.
  split.
  - apply (X25_exceptions_that_leave_main unconfigured_process).
    vm_compute. discriminate.
  - apply (X25_exceptions_that_leave_main unreachable_process).
    split_and!; [vm_compute; reflexivity|discriminate|].
    left. split; [discriminate|reflexivity].
Defined.
